(** * Authentication, authorisation and blog endpoints of the travel backend

    A shallow embedding of [app/core/security.py], [app/api/deps.py],
    [app/api/endpoints/auth.py] and [app/api/endpoints/blog.py], with the
    SQLAlchemy models and Pydantic schemas they use.

    Conventions.
    - A Python [str] is a [string], one [ascii] per character, so the texts
      covered are those over the first 256 code points.
    - A [datetime] is a number of microseconds since the epoch and a
      [timedelta] a number of microseconds, both in [Z]; the clock is an
      explicit argument [now] of every function that reads it.
    - A database session is the record [Session] of its three tables, each a
      list of rows in row order.  An endpoint that raises leaves the session
      as it found it: nothing is committed.
    - Nullable columns and [Optional] fields are [option]s, and a Python
      test [if x] / [not x] is written with the truth value of [x].
    - An [int] is a [Z]; the store binds only those of 64 bits, and a column
      with a default takes it at [INSERT] where the row has [None]. *)

From Stdlib Require Import ZArith List String Ascii Bool Lia.
From Stdlib Require Import Decimal DecimalString DecimalZ.
Import ListNotations.

Local Open Scope string_scope.
Local Open Scope Z_scope.

(** ** Outcome of a call *)

(** A call returns, raises [HTTPException(status_code, detail)], or lets an
    exception it does not handle escape (the framework answers 500). *)
Inductive result (A : Type) : Type :=
| Return (a : A)
| HTTPException (status_code : Z) (detail : string)
| Unhandled (exc : string).

Arguments Return {A} a.
Arguments HTTPException {A} status_code detail.
Arguments Unhandled {A} exc.

Definition bind {A B : Type} (r : result A) (k : A -> result B) : result B :=
  match r with
  | Return a => k a
  | HTTPException c d => HTTPException c d
  | Unhandled e => Unhandled e
  end.

Definition succeeds {A : Type} (r : result A) : bool :=
  match r with Return _ => true | _ => false end.

Definition status {A : Type} (r : result A) : Z :=
  match r with
  | Return _ => 200
  | HTTPException c _ => c
  | Unhandled _ => 500
  end.

(** ** The Python values the endpoints test and build *)

Module Py.

(** Truth value of an [Optional[bool]]. *)
Definition truthy_bool (b : option bool) : bool :=
  match b with Some true => true | _ => false end.

(** Truth value of an [Optional[str]]: [None] and the empty text are
    false. *)
Definition truthy_str (s : option string) : bool :=
  match s with
  | None => false
  | Some EmptyString => false
  | Some (String _ _) => true
  end.

(** [x or d] for an [Optional[str]] [x]. *)
Definition or_else (x : option string) (d : string) : string :=
  match x with
  | Some s => if truthy_str x then s else d
  | None => d
  end.

(** Truth value of a [timedelta]: false exactly when it is zero. *)
Definition truthy_timedelta (d : option Z) : bool :=
  match d with None => false | Some d => negb (d =? 0) end.

(** [str(n)] for an [int]. *)
Definition str (n : Z) : string := NilZero.string_of_int (Z.to_int n).

(** [timedelta(minutes=m)] and [timedelta(seconds=s)]. *)
Definition minutes (m : Z) : Z := m * 60000000.
Definition seconds (s : Z) : Z := s * 1000000.

(** [calendar.timegm(d.utctimetuple())]: whole seconds, the microseconds
    dropped. *)
Definition timegm (d : Z) : Z := d / 1000000.

(** [s.startswith(p)]. *)
Fixpoint startswith (p s : string) : bool :=
  match p, s with
  | EmptyString, _ => true
  | String _ _, EmptyString => false
  | String a p', String b s' => Ascii.eqb a b && startswith p' s'
  end.

(** [c.lower()] for one character: the capitals A-Z and, above 127, the
    capitals from 192 to 222 but the multiplication sign 215. *)
Definition lower_char (c : ascii) : ascii :=
  let n := nat_of_ascii c in
  if ((65 <=? n) && (n <=? 90))%nat
     || ((192 <=? n) && (n <=? 222) && negb (n =? 215))%nat
  then ascii_of_nat (n + 32)
  else c.

(** [s.lower()]. *)
Fixpoint lower (s : string) : string :=
  match s with
  | EmptyString => EmptyString
  | String c s' => String (lower_char c) (lower s')
  end.

(** [s.replace(old, new)] for a non-empty [old]: occurrences are taken
    from the left and do not overlap.  [skip] counts the characters of
    the occurrence just replaced that are still to be dropped. *)
Fixpoint replace_from (old new : string) (skip : nat) (s : string) : string :=
  match s with
  | EmptyString => EmptyString
  | String c s' =>
    match skip with
    | S k => replace_from old new k s'
    | O =>
      if startswith old s
      then new ++ replace_from old new (Nat.pred (String.length old)) s'
      else String c (replace_from old new O s')
    end
  end.

(** With [old] empty Python puts [new] before every character and at
    the end. *)
Fixpoint intersperse (new s : string) : string :=
  match s with
  | EmptyString => new
  | String c s' => new ++ String c (intersperse new s')
  end.

Definition replace (old new s : string) : string :=
  match old with
  | EmptyString => intersperse new s
  | String _ _ => replace_from old new O s
  end.

(** [s[:n]]. *)
Fixpoint slice_to (n : nat) (s : string) : string :=
  match n, s with
  | O, _ => EmptyString
  | S _, EmptyString => EmptyString
  | S k, String c s' => String c (slice_to k s')
  end.

(** [s.partition(" ")], without the separator: the text before the first
    space and the text after it. *)
Fixpoint partition_space (s : string) : string * string :=
  match s with
  | EmptyString => (EmptyString, EmptyString)
  | String c s' =>
    if Ascii.eqb c " " then (EmptyString, s')
    else let (a, b) := partition_space s' in (String c a, b)
  end.

(** [c.isspace()] for one character: tab to carriage return, the four
    separators 28 to 31, the space, and above 127 the next-line and
    no-break space characters. *)
Definition isspace (c : ascii) : bool :=
  let n := nat_of_ascii c in
  (((9 <=? n) && (n <=? 13)) || ((28 <=? n) && (n <=? 32))
   || (n =? 133) || (n =? 160))%nat.

(** [s.lstrip()], [s.rstrip()] and [s.strip()]. *)
Fixpoint lstrip (s : string) : string :=
  match s with
  | EmptyString => EmptyString
  | String c s' => if isspace c then lstrip s' else s
  end.

Fixpoint rstrip (s : string) : string :=
  match s with
  | EmptyString => EmptyString
  | String c s' =>
    match rstrip s' with
    | EmptyString => if isspace c then EmptyString else String c EmptyString
    | String d r => String c (String d r)
    end
  end.

Definition strip (s : string) : string := rstrip (lstrip s).

(** [s.split(sep)] for a non-empty [sep]: the pieces between the
    occurrences of [sep], taken from the left without overlap; the first
    piece of the result is the one being read.  [skip] counts the
    characters of the separator just met that are still to be dropped. *)
Fixpoint split_from (sep : string) (skip : nat) (s : string) : list string :=
  match s with
  | EmptyString => [EmptyString]
  | String c s' =>
    match skip with
    | S k => split_from sep k s'
    | O =>
      if startswith sep s
      then EmptyString :: split_from sep (Nat.pred (String.length sep)) s'
      else
        match split_from sep O s' with
        | piece :: pieces => String c piece :: pieces
        | [] => [String c EmptyString]
        end
    end
  end.

Definition split (sep s : string) : list string := split_from sep O s.

(** [sep.join(parts)]. *)
Fixpoint join (sep : string) (parts : list string) : string :=
  match parts with
  | [] => EmptyString
  | [x] => x
  | x :: rest => x ++ sep ++ join sep rest
  end.

End Py.

(** ** [app/core/config.py] *)

Module settings.
Definition API_V1_STR : string := "/api/v1".
Definition SECRET_KEY : string :=
  "aejUOWY7qptc4x2l-Es%ZQo1@CLyfPJ#36F5M*SRTGKwN0BV9+zu8nimX!bk=D&$".
Definition ALGORITHM : string := "HS256".
Definition ACCESS_TOKEN_EXPIRE_MINUTES : Z := 30.

(** The raw value of [BACKEND_CORS_ORIGINS] handed to its validator: a
    text, a list, or anything else. *)
Inductive origins : Type :=
| OriginsText (v : string)
| OriginsList (v : list string)
| OriginsOther.

Definition assemble_cors_origins (v : origins) : origins :=
  match v with
  | OriginsText s =>
    if negb (Py.startswith "[" s)
    then OriginsList (map Py.strip (Py.split "," s))
    else OriginsText s
  | OriginsList l => OriginsList l
  | OriginsOther => OriginsList []
  end.
End settings.

(** ** The libraries the code calls *)

(** The claims of a token the application writes and reads. *)
Module Claims.
Record t : Type := mk {
  exp : option Z;        (* seconds since the epoch *)
  sub : option string
}.
End Claims.

(** python-jose, the signing layer.  [jws_sign claims key algorithm] is the
    compact token; [jws_verify token key algorithms] checks structure and
    signature, parses the payload and checks the types of the registered
    claims, and is [None] for every [JWTError] raised on the way.  A
    subject that is present is a string.  The only law used is that a token
    signed with HS256 verifies under the key that signed it. *)
Class Jose : Type := {
  jws_sign : Claims.t -> string -> string -> string;
  jws_verify : string -> string -> list string -> option Claims.t;
  jws_verify_sign : forall c key,
    jws_verify (jws_sign c key "HS256") key ["HS256"] = Some c
}.

(** Pydantic's validation of an [int] field given a string, and of an
    [EmailStr] field: the address as the model keeps it, which need not be
    the text received, or [None] when the text is no address.  The only law
    used is that [int] reads back what [str] prints. *)
Class Pydantic : Type := {
  int_validate : string -> option Z;
  email_validate : string -> option string;
  int_validate_str : forall n, int_validate (Py.str n) = Some n
}.

(** passlib's [CryptContext(schemes=["argon2"])].  Hashing draws a salt,
    here the first argument.  [verify] answers [None] when it raises
    [UnknownHashError]: the stored text is not a hash of a scheme of the
    context.  The only law used is that a password verifies against its
    own hash. *)
Class Passlib : Type := {
  pwd_context_hash : string -> string -> string;
  pwd_context_verify : string -> option string -> option bool;
  pwd_context_verify_hash : forall salt password,
    pwd_context_verify password (Some (pwd_context_hash salt password))
    = Some true
}.

(** ** [app/models/user.py] and [app/models/blog.py] *)

Module User.
Record t : Type := mk {
  id : Z;
  email : option string;
  full_name : option string;
  hashed_password : option string;
  is_active : option bool;
  is_admin : option bool;
  language : option string
}.
End User.

Module Article.
Record t : Type := mk {
  id : Z;
  title : option string;
  slug : option string;
  content : option string;
  excerpt : option string;
  category : option string;
  image_url : option string;
  image_slug : option string;
  images : option (list string);
  structured_content : option string;   (* the JSON document, as text *)
  author_id : option Z;
  is_published : option bool;
  created_at : option Z
}.
End Article.

Module SavedArticle.
Record t : Type := mk {
  id : Z;
  user_id : option Z;
  article_id : option Z
}.
End SavedArticle.

(** ** The database session *)

Record Session : Type := mkSession {
  users : list User.t;
  articles : list Article.t;
  saved_articles : list SavedArticle.t
}.

Definition empty_session : Session := mkSession [] [] [].

(** [column == value] in a filter: a [NULL] column matches nothing. *)
Definition col_eqZ (c : option Z) (v : Z) : bool :=
  match c with Some x => x =? v | None => false end.

Definition col_eqs (c : option string) (v : string) : bool :=
  match c with Some x => String.eqb x v | None => false end.

(** The integers a statement can bind: SQLite's [INTEGER] has 64 bits, and
    for a Python [int] outside them the driver raises [OverflowError]
    before the statement runs. *)
Definition sqlite_integer (n : Z) : bool :=
  (- 2 ^ 63 <=? n) && (n <? 2 ^ 63).

(** A column declared with [default=d]: the [INSERT] stores [d] where the
    new row has [None]. *)
Definition column_default {A : Type} (d : A) (v : option A) : option A :=
  match v with
  | Some x => Some x
  | None => Some d
  end.

(** The integer primary key of a new row: one more than the largest in
    the table, 1 in an empty table. *)
Definition next_id (ids : list Z) : Z := 1 + fold_right Z.max 0 ids.

(** [query(User).filter(User.email == e).first()]. *)
Definition user_by_email (db : Session) (e : string) : option User.t :=
  find (fun u => col_eqs (User.email u) e) (users db).

(** [query(User).filter(User.id == sub).first()] for a [sub] the statement
    can bind; with [sub] [None] the filter is [id IS NULL], which no row of
    a primary key satisfies. *)
Definition user_by_id (db : Session) (sub : option Z) : option User.t :=
  match sub with
  | Some i => find (fun u => User.id u =? i) (users db)
  | None => None
  end.

(** Whether the statement can bind [sub]: [None] is bound as [NULL]. *)
Definition binds (sub : option Z) : bool :=
  match sub with
  | Some i => sqlite_integer i
  | None => true
  end.

(** [query(Article).filter(Article.id == i).first()]. *)
Definition article_by_id (db : Session) (i : Z) : option Article.t :=
  find (fun a => Article.id a =? i) (articles db).

(** [query(SavedArticle).filter(user_id == u, article_id == a)]. *)
Definition is_saved (u a : Z) (s : SavedArticle.t) : bool :=
  col_eqZ (SavedArticle.user_id s) u && col_eqZ (SavedArticle.article_id s) a.

Definition saved_by (db : Session) (u a : Z) : option SavedArticle.t :=
  find (is_saved u a) (saved_articles db).

(** [query(Article).filter(Article.slug == s).first()]. *)
Definition article_by_slug (db : Session) (s : string) : option Article.t :=
  find (fun a => col_eqs (Article.slug a) s) (articles db).

(** A [unique=True] column refuses a second row with the same non-[NULL]
    value: the commit raises [IntegrityError]. *)
Definition email_taken (db : Session) (e : option string) : bool :=
  match e with
  | Some e => existsb (fun u => col_eqs (User.email u) e) (users db)
  | None => false
  end.

Definition slug_taken (db : Session) (s : option string) : bool :=
  match s with
  | Some s => existsb (fun a => col_eqs (Article.slug a) s) (articles db)
  | None => false
  end.

(** [db.add(row); db.commit(); db.refresh(row)] for each table; [row] waits
    for the primary key the store assigns. *)
Definition add_user (db : Session) (row : Z -> User.t) : result User.t * Session :=
  let u := row (next_id (map User.id (users db))) in
  if email_taken db (User.email u) then (Unhandled "IntegrityError", db)
  else (Return u, mkSession (users db ++ [u]) (articles db) (saved_articles db)).

Definition add_article (db : Session) (row : Z -> Article.t)
  : result Article.t * Session :=
  let a := row (next_id (map Article.id (articles db))) in
  if slug_taken db (Article.slug a) then (Unhandled "IntegrityError", db)
  else (Return a, mkSession (users db) (articles db ++ [a]) (saved_articles db)).

Definition add_saved_article (db : Session) (row : Z -> SavedArticle.t)
  : result SavedArticle.t * Session :=
  let s := row (next_id (map SavedArticle.id (saved_articles db))) in
  (Return s, mkSession (users db) (articles db) (saved_articles db ++ [s])).

(** ** [jose.jwt] *)

Module jwt.

Inductive JWTError : Type :=
| JWSError                 (* structure, signature, payload or claim types *)
| ExpiredSignatureError.

(** The dictionary handed to [jwt.encode]: [exp] is still a [datetime]. *)
Record to_encode : Type := mk_to_encode {
  exp_at : option Z;
  subject : option string
}.

Section WithJose.
Context {J : Jose}.

(** [jwt.encode]: a [datetime] claim becomes whole seconds, then the
    claims are signed. *)
Definition encode (claims : to_encode) (key algorithm : string) : string :=
  jws_sign (Claims.mk (option_map Py.timegm (exp_at claims)) (subject claims))
           key algorithm.

(** [jwt.decode] with its default options: the signature layer, then
    the expiry check [exp < now] on whole seconds. *)
Definition decode (now : Z) (token key : string) (algorithms : list string)
  : JWTError + Claims.t :=
  match jws_verify token key algorithms with
  | None => inl JWSError
  | Some claims =>
    match Claims.exp claims with
    | Some e => if e <? Py.timegm now then inl ExpiredSignatureError
                else inr claims
    | None => inr claims
    end
  end.

End WithJose.
End jwt.

(** ** [app/schemas/user.py] *)

Module schemas.

Record TokenPayload : Type := mkTokenPayload { sub : option Z }.

Record Token : Type := mkToken {
  access_token : string;
  token_type : string
}.

(** [UserCreate] once validated: [email] is the address as [EmailStr]
    keeps it. *)
Record UserCreate : Type := mkUserCreate {
  email : string;
  password : string;
  full_name : string;
  is_active : option bool;
  is_admin : option bool;
  language : option string
}.

(** The fields of the body of a registration request, as received. *)
Record UserCreateBody : Type := mkUserCreateBody {
  body_email : string;
  body_password : string;
  body_full_name : string;
  body_is_active : option bool;
  body_is_admin : option bool;
  body_language : option string
}.

(** [UserCreate] built from the body: [None] is a [ValidationError]. *)
Definition UserCreate_of {P : Pydantic} (body : UserCreateBody) : option UserCreate :=
  match email_validate (body_email body) with
  | Some address =>
    Some (mkUserCreate address (body_password body) (body_full_name body)
                       (body_is_active body) (body_is_admin body)
                       (body_language body))
  | None => None
  end.

(** [TokenPayload] built from the payload's keys: [sub: Optional[int] =
    None]; the other keys are ignored.  [None] is a [ValidationError]. *)
Definition TokenPayload_of {P : Pydantic} (payload : Claims.t) : option TokenPayload :=
  match Claims.sub payload with
  | None => Some (mkTokenPayload None)
  | Some s =>
    match int_validate s with
    | Some n => Some (mkTokenPayload (Some n))
    | None => None
    end
  end.

End schemas.

(** ** [app/core/security.py] *)

Module security.
Section WithLibraries.
Context {J : Jose} {L : Passlib}.

Definition create_access_token (now : Z) (subject : Z)
           (expires_delta : option Z) : string :=
  let expire :=
    match expires_delta with
    | Some d => if Py.truthy_timedelta expires_delta then now + d
                else now + Py.minutes settings.ACCESS_TOKEN_EXPIRE_MINUTES
    | None => now + Py.minutes settings.ACCESS_TOKEN_EXPIRE_MINUTES
    end in
  let to_encode := jwt.mk_to_encode (Some expire) (Some (Py.str subject)) in
  jwt.encode to_encode settings.SECRET_KEY settings.ALGORITHM.

Definition verify_password (plain_password : string)
           (hashed_password : option string) : result bool :=
  match pwd_context_verify plain_password hashed_password with
  | Some ok => Return ok
  | None => Unhandled "UnknownHashError"
  end.

Definition get_password_hash (salt password : string) : string :=
  pwd_context_hash salt password.

End WithLibraries.
End security.

(** ** [app/api/deps.py] *)

Module deps.
Section WithLibraries.
Context {J : Jose} {P : Pydantic}.

(** [OAuth2PasswordBearer.__call__] on the [Authorization] header. *)
Definition reusable_oauth2 (authorization : option string) : result string :=
  match authorization with
  | None => HTTPException 401 "Not authenticated"
  | Some header =>
    let (scheme, param) := Py.partition_space header in
    if String.eqb (Py.lower scheme) "bearer" then Return param
    else HTTPException 401 "Not authenticated"
  end.

Definition get_current_user (db : Session) (now : Z) (token : string)
  : result User.t :=
  match jwt.decode now token settings.SECRET_KEY [settings.ALGORITHM] with
  | inl _ => HTTPException 403 "Could not validate credentials"
  | inr payload =>
    match schemas.TokenPayload_of payload with
    | None => HTTPException 403 "Could not validate credentials"
    | Some token_data =>
      (* the query binds [sub], then reads the first row *)
      if negb (binds (schemas.sub token_data))
      then Unhandled "OverflowError"
      else
        match user_by_id db (schemas.sub token_data) with
        | None => HTTPException 404 "User not found"
        | Some user => Return user
        end
    end
  end.

End WithLibraries.
End deps.

(** ** [app/api/endpoints/auth.py] *)

Module auth.

Record OAuth2PasswordRequestForm : Type := mkForm {
  username : string;
  password : string
}.

Section WithLibraries.
Context {J : Jose} {P : Pydantic} {L : Passlib}.

Definition login_access_token (db : Session) (now : Z)
           (form_data : OAuth2PasswordRequestForm) : result schemas.Token :=
  match user_by_email db (username form_data) with
  | None => HTTPException 400 "Incorrect email or password"
  | Some user =>
    bind (security.verify_password (password form_data)
                                   (User.hashed_password user))
         (fun verified =>
            if negb verified
            then HTTPException 400 "Incorrect email or password"
            else if negb (Py.truthy_bool (User.is_active user))
            then HTTPException 400 "Inactive user"
            else
              let access_token_expires :=
                Py.minutes settings.ACCESS_TOKEN_EXPIRE_MINUTES in
              Return (schemas.mkToken
                        (security.create_access_token now (User.id user)
                                                      (Some access_token_expires))
                        "bearer"))
  end.

Definition register_user (db : Session) (salt : string)
           (user_in : schemas.UserCreate) : result User.t * Session :=
  match user_by_email db (schemas.email user_in) with
  | Some _ =>
    (HTTPException 400
       "The user with this username already exists in the system.", db)
  | None =>
    add_user db (fun new_id =>
      User.mk new_id
              (Some (schemas.email user_in))
              (Some (schemas.full_name user_in))
              (Some (security.get_password_hash salt (schemas.password user_in)))
              (Some true)      (* is_active=True *)
              (Some false)     (* column default *)
              (Some "it"))     (* column default *)
  end.

Definition read_users_me (current_user : User.t) : result User.t :=
  Return current_user.

End WithLibraries.
End auth.

(** ** [app/schemas/blog.py] *)

Module blog_schemas.

Record ArticleCreate : Type := mkArticleCreate {
  title : string;
  slug : option string;
  content : string;
  excerpt : option string;
  category : option string;
  image_url : option string;
  image_slug : option string;
  images : option (list string);
  structured_content : option string;
  is_published : option bool
}.

(** Every field of [ArticleUpdate] is optional; the outer [option] says
    whether the request set the field at all ([exclude_unset]). *)
Record ArticleUpdate : Type := mkArticleUpdate {
  u_title : option (option string);
  u_content : option (option string);
  u_excerpt : option (option string);
  u_category : option (option string);
  u_image_url : option (option string);
  u_is_published : option (option bool)
}.

(** The uploaded file as the endpoint reads it. *)
Record UploadFile : Type := mkUploadFile {
  filename : option string;
  content_type : option string;
  body : string
}.

(** A [response_model] reads its fields from the attributes of the row
    the endpoint returned; [None] is the [ResponseValidationError] of a
    required field that is [None] or missing.  [schemas.Article] requires
    [id], [title], [content] and [created_at]. *)
Definition Article_from_attributes (a : Article.t) : option Article.t :=
  match Article.title a, Article.content a, Article.created_at a with
  | Some _, Some _, Some _ => Some a
  | _, _, _ => None
  end.

(** [schemas.SavedArticle]: [id: int] and [article: Article]. *)
Record SavedArticleOut : Type := mkSavedArticleOut {
  out_id : Z;
  out_article : Article.t
}.

(** [getattr(row, "article")]: the model [SavedArticle] has the columns
    [id], [user_id] and [article_id] and declares no relationship, so a row
    has no such attribute. *)
Definition SavedArticle_article (s : SavedArticle.t) : option Article.t := None.

Definition SavedArticle_from_attributes (s : SavedArticle.t)
  : option SavedArticleOut :=
  match SavedArticle_article s with
  | Some a =>
    match Article_from_attributes a with
    | Some a' => Some (mkSavedArticleOut (SavedArticle.id s) a')
    | None => None
    end
  | None => None
  end.

(** A [List[...]] response: every element is read. *)
Fixpoint each_from_attributes {A B : Type} (read : A -> option B) (rows : list A)
  : option (list B) :=
  match rows with
  | [] => Some []
  | x :: rest =>
    match read x, each_from_attributes read rest with
    | Some y, Some ys => Some (y :: ys)
    | _, _ => None
    end
  end.

End blog_schemas.

(** The directory the images are written to.  [write_file disk name body]
    is what [open(path, "wb")] and [write] do: the text of the exception
    when one is raised, and the directory afterwards. *)
Class FileSystem : Type := {
  Disk : Type;
  write_file : Disk -> string -> string -> option string * Disk
}.

(** ** [app/api/endpoints/blog.py] *)

Module blog.
Import blog_schemas.

(** [.offset(skip).limit(limit)] as SQLite reads them: a negative offset
    is no offset, a negative limit no limit. *)
Definition offset_limit {A : Type} (skip limit : Z) (rows : list A) : list A :=
  let rest := skipn (Z.to_nat skip) rows in
  if limit <? 0 then rest else firstn (Z.to_nat limit) rest.

Definition read_articles (db : Session) (skip limit : Z) : result (list Article.t) :=
  if sqlite_integer skip && sqlite_integer limit
  then Return (offset_limit skip limit (articles db))
  else Unhandled "OverflowError".

Definition published (a : Article.t) : bool :=
  match Article.is_published a with Some true => true | _ => false end.

Definition get_all_articles (db : Session) : result (list Article.t) :=
  Return (filter published (articles db)).

Definition read_article (db : Session) (id : Z) : result Article.t :=
  match article_by_id db id with
  | None => HTTPException 404 "Article not found"
  | Some article => Return article
  end.

Definition read_saved_articles (db : Session) (current_user : User.t)
  : result (list SavedArticle.t) :=
  Return (filter (fun s => col_eqZ (SavedArticle.user_id s) (User.id current_user))
                 (saved_articles db)).

(** The slug made from the title when the request gives none. *)
Definition slug_of_title (title : string) : string :=
  Py.replace "'" "" (Py.replace " " "-" (Py.lower title)).

(** [structured] is what the awaited structuring service gave, [None]
    when it raised. *)
Definition create_article (db : Session) (now : Z) (structured : option string)
           (article_in : ArticleCreate) (current_user : User.t)
  : result Article.t * Session :=
  if negb (Py.truthy_bool (User.is_admin current_user))
  then (HTTPException 403 "Only admins can create articles", db)
  else
    let slug :=
      match blog_schemas.slug article_in with
      | Some s => if negb (Py.truthy_str (Some s))
                  then slug_of_title (title article_in) else s
      | None => slug_of_title (title article_in)
      end in
    let structured_content := structured in
    add_article db (fun new_id =>
      Article.mk new_id
        (Some (title article_in))
        (Some slug)
        (Some (content article_in))
        (Some (Py.or_else (excerpt article_in)
                          (Py.slice_to 200 (content article_in) ++ "...")))
        (category article_in)
        (image_url article_in)
        (image_slug article_in)
        (Some (match image_url article_in with
               | Some url => if Py.truthy_str (Some url) then [url] else []
               | None => []
               end))
        structured_content
        None                       (* author_id is not set *)
        (Some false)               (* column default *)
        (Some now)).               (* column default: utcnow *)

Definition create_article_simple (db : Session) (now : Z)
           (article_in : ArticleCreate) (current_user : User.t)
  : result Article.t * Session :=
  if negb (Py.truthy_bool (User.is_admin current_user))
  then (HTTPException 403 "Only admins can create articles", db)
  else
    add_article db (fun new_id =>
      Article.mk new_id
        (Some (title article_in))
        (blog_schemas.slug article_in)
        (Some (content article_in))
        (excerpt article_in)
        (category article_in)
        (image_url article_in)
        (image_slug article_in)
        (images article_in)
        (blog_schemas.structured_content article_in)
        (Some (User.id current_user))
        (column_default false (is_published article_in))
        (Some now)).               (* column default: utcnow *)

(** [setattr(article, field, value)] for the fields the request set. *)
Definition set_field {A : Type} (new : option A) (old : A) : A :=
  match new with Some v => v | None => old end.

Definition apply_update (article_in : ArticleUpdate) (a : Article.t) : Article.t :=
  Article.mk (Article.id a)
    (set_field (u_title article_in) (Article.title a))
    (Article.slug a)
    (set_field (u_content article_in) (Article.content a))
    (set_field (u_excerpt article_in) (Article.excerpt a))
    (set_field (u_category article_in) (Article.category a))
    (set_field (u_image_url article_in) (Article.image_url a))
    (Article.image_slug a)
    (Article.images a)
    (Article.structured_content a)
    (Article.author_id a)
    (set_field (u_is_published article_in) (Article.is_published a))
    (Article.created_at a).

Definition update_article (db : Session) (article_id : Z)
           (article_in : ArticleUpdate) (current_user : User.t)
  : result Article.t * Session :=
  if negb (Py.truthy_bool (User.is_admin current_user))
  then (HTTPException 403 "Only admins can update articles", db)
  else
    match article_by_id db article_id with
    | None => (HTTPException 404 "Article not found", db)
    | Some article =>
      let article' := apply_update article_in article in
      (Return article',
       mkSession (users db)
                 (map (fun a => if Article.id a =? article_id
                                then apply_update article_in a else a)
                      (articles db))
                 (saved_articles db))
    end.

Definition delete_article (db : Session) (article_id : Z) (current_user : User.t)
  : result string * Session :=
  if negb (Py.truthy_bool (User.is_admin current_user))
  then (HTTPException 403 "Only admins can delete articles", db)
  else
    match article_by_id db article_id with
    | None => (HTTPException 404 "Article not found", db)
    | Some article =>
      (Return "Article deleted successfully",
       mkSession (users db)
                 (filter (fun a => negb (Article.id a =? article_id)) (articles db))
                 (saved_articles db))
    end.

(** [uuid8] is [uuid.uuid4().hex[:8]]. *)
Definition upload_image {F : FileSystem} (disk : Disk) (uuid8 : string)
           (file : UploadFile) (current_user : User.t) : result string * Disk :=
  if negb (Py.truthy_bool (User.is_admin current_user))
  then (HTTPException 403 "Only admins can upload images", disk)
  else
    match content_type file with
    | None => (Unhandled "AttributeError", disk)
    | Some ct =>
      if negb (Py.startswith "image/" ct)
      then (HTTPException 400 "File must be an image", disk)
      else
        match filename file with
        | None => (Unhandled "AttributeError", disk)
        | Some name =>
          let unique_filename := uuid8 ++ "-" ++ name in
          match write_file disk unique_filename (body file) with
          | (Some e, disk') =>
            (HTTPException 500 ("Failed to save file: " ++ e), disk')
          | (None, disk') =>
            (Return ("/images/blog/" ++ unique_filename), disk')
          end
        end
    end.

Definition save_article (db : Session) (article_id : Z) (current_user : User.t)
  : result SavedArticle.t * Session :=
  match article_by_id db article_id with
  | None => (HTTPException 404 "Article not found", db)
  | Some article =>
    match saved_by db (User.id current_user) article_id with
    | Some saved => (Return saved, db)
    | None =>
      add_saved_article db (fun new_id =>
        SavedArticle.mk new_id (Some (User.id current_user)) (Some article_id))
    end
  end.

(** [db.delete(saved)]: the row goes by its primary key. *)
Definition unsave_article (db : Session) (article_id : Z) (current_user : User.t)
  : result string * Session :=
  match saved_by db (User.id current_user) article_id with
  | None => (HTTPException 404 "Saved article not found", db)
  | Some saved =>
    (Return "Article removed from saved",
     mkSession (users db) (articles db)
               (filter (fun s => negb (SavedArticle.id s =? SavedArticle.id saved))
                       (saved_articles db)))
  end.

(** [read_article_by_slug] and, with the same body, the endpoint at the
    root of the router, [get_article_by_slug_simple]. *)
Definition read_article_by_slug (db : Session) (slug : string) : result Article.t :=
  match article_by_slug db slug with
  | None => HTTPException 404 "Article not found"
  | Some article => Return article
  end.

Definition get_article_by_slug_simple (db : Session) (slug : string)
  : result Article.t :=
  match article_by_slug db slug with
  | None => HTTPException 404 "Article not found"
  | Some article => Return article
  end.

(** [SELECT DISTINCT]: each value once.  The store chooses the order of
    the rows; here it is the order of first occurrence. *)
Fixpoint distinct (l : list string) : list string :=
  match l with
  | [] => []
  | x :: rest => x :: filter (fun y => negb (String.eqb x y)) (distinct rest)
  end.

(** The categories that are not [NULL], one element per row. *)
Fixpoint categories_not_null (rows : list Article.t) : list string :=
  match rows with
  | [] => []
  | a :: rest =>
    match Article.category a with
    | Some c => c :: categories_not_null rest
    | None => categories_not_null rest
    end
  end.

Definition read_categories (db : Session) : result (list string) :=
  let categories := distinct (categories_not_null (articles db)) in
  Return (filter (fun cat => Py.truthy_str (Some cat)) categories).

(** The second route to [save_article]. *)
Definition save_article_alt (db : Session) (article_id : Z) (current_user : User.t)
  : result SavedArticle.t * Session :=
  match article_by_id db article_id with
  | None => (HTTPException 404 "Article not found", db)
  | Some article =>
    match saved_by db (User.id current_user) article_id with
    | Some saved => (Return saved, db)
    | None =>
      add_saved_article db (fun new_id =>
        SavedArticle.mk new_id (Some (User.id current_user)) (Some article_id))
    end
  end.

(** [unsave_article_alt] and, with the same body, [unsave_article_post]. *)
Definition unsave_article_alt (db : Session) (article_id : Z) (current_user : User.t)
  : result string * Session :=
  match saved_by db (User.id current_user) article_id with
  | None => (HTTPException 404 "Article not in saved list", db)
  | Some saved =>
    (Return "Article removed from saved",
     mkSession (users db) (articles db)
               (filter (fun s => negb (SavedArticle.id s =? SavedArticle.id saved))
                       (saved_articles db)))
  end.

Definition unsave_article_post (db : Session) (article_id : Z) (current_user : User.t)
  : result string * Session :=
  match saved_by db (User.id current_user) article_id with
  | None => (HTTPException 404 "Article not in saved list", db)
  | Some saved =>
    (Return "Article removed from saved",
     mkSession (users db) (articles db)
               (filter (fun s => negb (SavedArticle.id s =? SavedArticle.id saved))
                       (saved_articles db)))
  end.

End blog.

(** ** [app/services/article_structure_service.py] *)

Module article_structure_service.

Record section : Type := mkSection {
  title : string;
  content : string;
  type : string
}.

Record structure : Type := mkStructure {
  intro_text : string;
  highlights : list string;
  sections : list section;
  tips : list (string * string);
  conclusion_text : string
}.

(** The separator of paragraphs: two line feeds. *)
Definition blank_line : string := String "010" (String "010" EmptyString).

(** [[p.strip() for p in content.split(blank_line) if p.strip()]]. *)
Definition paragraphs_of (content : string) : list string :=
  map Py.strip
      (filter (fun p => Py.truthy_str (Some (Py.strip p)))
              (Py.split blank_line content)).

Definition _get_basic_structure (content : string) : structure :=
  let paragraphs := paragraphs_of content in
  mkStructure
    (match paragraphs with p :: _ => p | [] => EmptyString end)
    []
    [mkSection "Contenuto"
               (if (1 <? List.length paragraphs)%nat
                then Py.join blank_line (tl paragraphs) else content)
               "text"]
    []
    EmptyString.

End article_structure_service.

(** ** [import_data.py] and [export_data.py]

    The data file is a JSON object with one list of entries per table.  An
    entry is taken here with its keys read: a key that may be absent is an
    outer [option], a JSON null an inner [None].  The creation time of an
    article is the instant its ISO text denotes, [isoformat] and
    [fromisoformat] being inverse of each other.  The session of the import
    flushes before each query, so an entry sees the rows added for the
    entries before it; a row whose id is already in the table makes the
    flush raise [IntegrityError], and nothing is committed.  Rows with a
    given id take their place in id order, which is the row order of the
    store. *)

Module scripts.

Record user_data : Type := mkUserData {
  ud_id : Z;
  ud_email : option string;
  ud_full_name : option string;
  ud_hashed_password : option string;
  ud_is_active : option bool;
  ud_is_admin : option bool;
  ud_language : option (option string)          (* [.get("language", "it")] *)
}.

Record article_data : Type := mkArticleData {
  ad_id : Z;
  ad_title : option string;
  ad_slug : option string;
  ad_content : option string;
  ad_excerpt : option string;
  ad_category : option string;
  ad_image_url : option string;
  ad_image_slug : option string;
  ad_images : option (list string);
  ad_structured_content : option string;
  ad_author_id : option Z;
  ad_is_published : option (option bool);       (* [.get("is_published", False)] *)
  ad_created_at : option Z                      (* absent, null or empty: now *)
}.

Record saved_data : Type := mkSavedData {
  sd_id : Z;
  sd_user_id : option Z;
  sd_article_id : option Z
}.

Record data : Type := mkData {
  d_users : list user_data;
  d_articles : list article_data;
  d_saved_articles : list saved_data
}.

(** [column == value] with a value that may be [None]: then [IS NULL]. *)
Definition col_is_s (c v : option string) : bool :=
  match v with
  | Some x => col_eqs c x
  | None => match c with None => true | Some _ => false end
  end.

Definition col_is_Z (c v : option Z) : bool :=
  match v with
  | Some x => col_eqZ c x
  | None => match c with None => true | Some _ => false end
  end.

(** A row with a given primary key goes before the first row with a larger
    one. *)
Fixpoint insert_row {A : Type} (key : A -> Z) (x : A) (rows : list A) : list A :=
  match rows with
  | [] => [x]
  | y :: rest =>
    if key x <? key y then x :: y :: rest else y :: insert_row key x rest
  end.

Definition id_taken {A : Type} (key : A -> Z) (i : Z) (rows : list A) : bool :=
  existsb (fun y => key y =? i) rows.

(** [session.add(row)] and the flush that follows; [None] is
    [IntegrityError]. *)
Definition add_with_id {A : Type} (key : A -> Z) (x : A) (rows : list A)
  : option (list A) :=
  if id_taken key (key x) rows then None else Some (insert_row key x rows).

Definition user_of (e : user_data) : User.t :=
  User.mk (ud_id e) (ud_email e) (ud_full_name e) (ud_hashed_password e)
          (column_default true (ud_is_active e))
          (column_default false (ud_is_admin e))
          (column_default
             "it" (match ud_language e with Some l => l | None => Some "it" end)).

Definition article_of (now : Z) (e : article_data) : Article.t :=
  Article.mk (ad_id e) (ad_title e) (ad_slug e) (ad_content e) (ad_excerpt e)
             (ad_category e) (ad_image_url e) (ad_image_slug e) (ad_images e)
             (ad_structured_content e) (ad_author_id e)
             (column_default
                false
                (match ad_is_published e with Some p => p | None => Some false end))
             (Some (match ad_created_at e with Some t => t | None => now end)).

Definition saved_of (e : saved_data) : SavedArticle.t :=
  SavedArticle.mk (sd_id e) (sd_user_id e) (sd_article_id e).

(** The body of each of the three loops. *)
Definition import_user (rows : list User.t) (e : user_data)
  : option (list User.t) :=
  match find (fun u => col_is_s (User.email u) (ud_email e)) rows with
  | Some existing => Some rows
  | None => add_with_id User.id (user_of e) rows
  end.

Definition import_article (now : Z) (rows : list Article.t) (e : article_data)
  : option (list Article.t) :=
  match find (fun a => col_is_s (Article.slug a) (ad_slug e)) rows with
  | Some existing => Some rows
  | None => add_with_id Article.id (article_of now e) rows
  end.

Definition import_saved (rows : list SavedArticle.t) (e : saved_data)
  : option (list SavedArticle.t) :=
  match find (fun s => col_is_Z (SavedArticle.user_id s) (sd_user_id e)
                       && col_is_Z (SavedArticle.article_id s) (sd_article_id e))
             rows with
  | Some existing => Some rows
  | None => add_with_id SavedArticle.id (saved_of e) rows
  end.

(** A loop over the entries of one table. *)
Fixpoint import_each {A E : Type} (step : list A -> E -> option (list A))
         (entries : list E) (rows : list A) : option (list A) :=
  match entries with
  | [] => Some rows
  | e :: rest =>
    match step rows e with
    | Some rows' => import_each step rest rows'
    | None => None
    end
  end.

Definition import_data (db : Session) (now : Z) (file : data)
  : result unit * Session :=
  match import_each import_user (d_users file) (users db) with
  | None => (Unhandled "IntegrityError", db)
  | Some us =>
    match import_each (import_article now) (d_articles file) (articles db) with
    | None => (Unhandled "IntegrityError", db)
    | Some ars =>
      match import_each import_saved (d_saved_articles file) (saved_articles db) with
      | None => (Unhandled "IntegrityError", db)
      | Some svs => (Return tt, mkSession us ars svs)
      end
    end
  end.

Definition export_data (db : Session) : data :=
  mkData
    (map (fun u => mkUserData (User.id u) (User.email u) (User.full_name u)
                              (User.hashed_password u) (User.is_active u)
                              (User.is_admin u) (Some (User.language u)))
         (users db))
    (map (fun a => mkArticleData (Article.id a) (Article.title a) (Article.slug a)
                                 (Article.content a) (Article.excerpt a)
                                 (Article.category a) (Article.image_url a)
                                 (Article.image_slug a) (Article.images a)
                                 (Article.structured_content a)
                                 (Article.author_id a)
                                 (Some (Article.is_published a))
                                 (Article.created_at a))
         (articles db))
    (map (fun s => mkSavedData (SavedArticle.id s) (SavedArticle.user_id s)
                               (SavedArticle.article_id s))
         (saved_articles db)).

End scripts.

(** ** The endpoints behind their declared dependencies

    What FastAPI resolves before it calls an endpoint: an endpoint that
    declares [Depends(deps.get_current_user)] gets the principal of the
    [Authorization] header or is not called; an endpoint that declares only
    the session is called whatever the header. *)

Module routes.
Section WithLibraries.
Context {J : Jose} {P : Pydantic}.

Definition current_user (db : Session) (now : Z)
           (authorization : option string) : result User.t :=
  bind (deps.reusable_oauth2 authorization) (deps.get_current_user db now).

Definition with_user {A : Type} (db : Session) (now : Z)
           (authorization : option string)
           (endpoint : User.t -> result A * Session) : result A * Session :=
  match current_user db now authorization with
  | Return user => endpoint user
  | HTTPException c d => (HTTPException c d, db)
  | Unhandled e => (Unhandled e, db)
  end.

(** What the route answers for the value its endpoint returned, read
    through the declared [response_model]. *)
Definition response_model {A B : Type} (read : A -> option B) (r : result A)
  : result B :=
  bind r (fun a => match read a with
                   | Some b => Return b
                   | None => Unhandled "ResponseValidationError"
                   end).

(** GET /blog/articles?skip=..&limit=..; without them [skip: int = 0] and
    [limit: int = 100].  [response_model=List[schemas.Article]]. *)
Definition GET_articles (db : Session) (now : Z) (authorization : option string)
           (skip limit : option Z) : result (list Article.t) :=
  response_model
    (blog_schemas.each_from_attributes blog_schemas.Article_from_attributes)
    (blog.read_articles db
       (match skip with Some n => n | None => 0 end)
       (match limit with Some n => n | None => 100 end)).

(** GET /blog, [response_model=List[schemas.Article]]. *)
Definition GET_blog (db : Session) (now : Z) (authorization : option string)
  : result (list Article.t) :=
  response_model
    (blog_schemas.each_from_attributes blog_schemas.Article_from_attributes)
    (blog.get_all_articles db).

(** GET /blog/saved, [response_model=List[schemas.SavedArticle]]. *)
Definition GET_saved (db : Session) (now : Z) (authorization : option string)
  : result (list blog_schemas.SavedArticleOut) :=
  response_model
    (blog_schemas.each_from_attributes blog_schemas.SavedArticle_from_attributes)
    (bind (current_user db now authorization) (blog.read_saved_articles db)).

(** POST /blog/save/{article_id}, [response_model=schemas.SavedArticle]: the
    endpoint has committed when the answer is read. *)
Definition POST_save (db : Session) (now : Z) (authorization : option string)
           (article_id : Z) : result blog_schemas.SavedArticleOut * Session :=
  let (r, db') := with_user db now authorization (blog.save_article db article_id) in
  (response_model blog_schemas.SavedArticle_from_attributes r, db').

(** GET /auth/me *)
Definition GET_me (db : Session) (now : Z) (authorization : option string)
  : result User.t :=
  bind (current_user db now authorization) auth.read_users_me.

End WithLibraries.
End routes.

(** ** A small model of each library

    Enough to run the endpoints and to show that the laws asked of the
    libraries can be met.  A token is four framed fields: key, algorithm,
    expiry and subject; a frame is the length in strokes, a full stop, then
    the text. *)

Module Model.

Fixpoint tally (n : nat) : string :=
  match n with
  | O => "."
  | S k => String "|" (tally k)
  end.

Definition frame (s : string) : string := tally (String.length s) ++ s.

Fixpoint untally (s : string) : option (nat * string) :=
  match s with
  | EmptyString => None
  | String c r =>
    if Ascii.eqb c "." then Some (O, r)
    else if Ascii.eqb c "|" then
      match untally r with
      | Some (n, r') => Some (S n, r')
      | None => None
      end
    else None
  end.

Fixpoint take (n : nat) (s : string) : option (string * string) :=
  match n with
  | O => Some (EmptyString, s)
  | S k =>
    match s with
    | EmptyString => None
    | String c r =>
      match take k r with
      | Some (a, b) => Some (String c a, b)
      | None => None
      end
    end
  end.

Definition unframe (s : string) : option (string * string) :=
  match untally s with
  | Some (n, r) => take n r
  | None => None
  end.

(** An optional text: absent is the empty field, present starts with "=". *)
Definition field_of (o : option string) : string :=
  match o with None => EmptyString | Some s => String "=" s end.

Definition of_field (s : string) : option string :=
  match s with EmptyString => None | String _ r => Some r end.

Definition parse_int (s : string) : option Z :=
  option_map Z.of_int (NilZero.int_of_string s).

Definition sign (c : Claims.t) (key algorithm : string) : string :=
  frame key ++ frame algorithm
  ++ frame (field_of (option_map Py.str (Claims.exp c)))
  ++ frame (field_of (Claims.sub c)).

Definition verify (token key : string) (algorithms : list string)
  : option Claims.t :=
  match unframe token with
  | Some (k, r1) =>
    match unframe r1 with
    | Some (a, r2) =>
      match unframe r2 with
      | Some (e, r3) =>
        match unframe r3 with
        | Some (s, EmptyString) =>
          if String.eqb k key && existsb (String.eqb a) algorithms then
            match of_field e with
            | None => Some (Claims.mk None (of_field s))
            | Some digits =>
              match parse_int digits with
              | Some z => Some (Claims.mk (Some z) (of_field s))
              | None => None
              end
            end
          else None
        | _ => None
        end
      | None => None
      end
    | None => None
    end
  | None => None
  end.

(** A password "hash" that keeps the salt and the password apart. *)
Definition hash (salt password : string) : string :=
  frame salt ++ password.

(** [None] where no salt can be read: the text is no hash of the
    context.  A [NULL] hash verifies nothing. *)
Definition check (password : string) (hashed : option string) : option bool :=
  match hashed with
  | None => Some false
  | Some h =>
    match unframe h with
    | Some (_, p) => Some (String.eqb p password)
    | None => None
    end
  end.

(** An address has a local part and a domain around its first at sign,
    neither empty; it is kept with the white space around it stripped and
    the domain in lower case. *)
Fixpoint split_at_sign (s : string) : option (string * string) :=
  match s with
  | EmptyString => None
  | String c s' =>
    if Ascii.eqb c "@" then Some (EmptyString, s')
    else
      match split_at_sign s' with
      | Some (local, domain) => Some (String c local, domain)
      | None => None
      end
  end.

Definition validate_email (value : string) : option string :=
  match split_at_sign (Py.strip value) with
  | Some (String c local, String d domain) =>
    Some (String c local ++ "@" ++ Py.lower (String d domain))
  | _ => None
  end.

(** The image directory as the list of files written, newest first. *)
Definition write (disk : list (string * string)) (name body : string)
  : option string * list (string * string) :=
  (None, (name, body) :: disk).

End Model.

(** ** Vocabulary of the specification *)

(** The state machine of the specification, with the credential store's
    [findByEmail] and [verifyPassword] and the token service's [issue] as
    the machine's three oracles. *)

Module LoginMachine.

Inductive failure : Type := InvalidCredentials | InactiveAccount.

Inductive state : Type :=
| Received (email password : string)
| LookupByEmail (email password : string)
| NotFound
| Found (principal : User.t) (password : string)
| VerifyPassword (principal : User.t) (password : string)
| Mismatch
| Match (principal : User.t)
| CheckActive (principal : User.t)
| Inactive
| Active (principal : User.t)
| IssueToken (principal : User.t)
| Success (token : string)
| Fail (kind : failure).

Section Machine.
Variable findByEmail : string -> option User.t.
Variable verifyPassword : string -> option string -> bool.
Variable issue : Z -> string.

Definition next (s : state) : option state :=
  match s with
  | Received e p => Some (LookupByEmail e p)
  | LookupByEmail e p =>
    match findByEmail e with
    | None => Some NotFound
    | Some principal => Some (Found principal p)
    end
  | NotFound => Some (Fail InvalidCredentials)
  | Found principal p => Some (VerifyPassword principal p)
  | VerifyPassword principal p =>
    if verifyPassword p (User.hashed_password principal)
    then Some (Match principal) else Some Mismatch
  | Mismatch => Some (Fail InvalidCredentials)
  | Match principal => Some (CheckActive principal)
  | CheckActive principal =>
    if Py.truthy_bool (User.is_active principal)
    then Some (Active principal) else Some Inactive
  | Inactive => Some (Fail InactiveAccount)
  | Active principal => Some (IssueToken principal)
  | IssueToken principal => Some (Success (issue (User.id principal)))
  | Success _ => None
  | Fail _ => None
  end.



End Machine.



End LoginMachine.

(** The credential store of the specification, read off the rows of the
    user table: [findByEmail] is the first principal with the email, and a
    password verifies when the hasher says so. *)
Module CredentialStore.

Fixpoint findByEmail (rows : list User.t) (email : string) : option User.t :=
  match rows with
  | [] => None
  | principal :: rest =>
    match User.email principal with
    | Some e =>
      if String.eqb e email then Some principal else findByEmail rest email
    | None => findByEmail rest email
    end
  end.

Definition verifyPassword {L : Passlib} (password : string)
           (passwordHash : option string) : bool :=
  match pwd_context_verify password passwordHash with
  | Some true => true
  | _ => false
  end.

End CredentialStore.

Section TokenVocabulary.
Context {J : Jose} {P : Pydantic} {L : Passlib}.

(** The token is accepted with subject [s]: signature and structure hold
    under the server's key and algorithm, the expiry has not passed, and
    the subject claim, if any, reads as an integer. *)
Definition accepted (now : Z) (token : string) (s : option Z) : Prop :=
  exists c,
    jws_verify token settings.SECRET_KEY [settings.ALGORITHM] = Some c
    /\ (forall e, Claims.exp c = Some e -> Py.timegm now <= e)
    /\ schemas.TokenPayload_of c = Some (schemas.mkTokenPayload s).

(** The three ways a token is refused. *)
Definition malformed_or_forged (token : string) : Prop :=
  jws_verify token settings.SECRET_KEY [settings.ALGORITHM] = None.

Definition expired (now : Z) (token : string) : Prop :=
  exists c e,
    jws_verify token settings.SECRET_KEY [settings.ALGORITHM] = Some c
    /\ Claims.exp c = Some e /\ e < Py.timegm now.

Definition malformed_subject (token : string) : Prop :=
  exists c s,
    jws_verify token settings.SECRET_KEY [settings.ALGORITHM] = Some c
    /\ Claims.sub c = Some s /\ int_validate s = None.

Definition rejected (now : Z) (token : string) : Prop :=
  malformed_or_forged token \/ expired now token \/ malformed_subject token.

(** The token a login issues for the principal with id [i] at [now]. *)
Definition issue (now i : Z) : string :=
  security.create_access_token
    now i (Some (Py.minutes settings.ACCESS_TOKEN_EXPIRE_MINUTES)).




(** The claim as the specification words it: after a registration, a
    login with the pair of the request succeeds. *)
Definition login_with_the_registered_pair : Prop :=
  forall (db db' : Session) (salt : string) (body : schemas.UserCreateBody)
         (user_in : schemas.UserCreate) (u : User.t) (now : Z),
    schemas.UserCreate_of body = Some user_in ->
    auth.register_user db salt user_in = (Return u, db') ->
    succeeds (auth.login_access_token
                db' now
                (auth.mkForm (schemas.body_email body) (schemas.body_password body)))
    = true.

End TokenVocabulary.

(** The number of bookmark rows of user [u] for article [a]. *)
Definition bookmarks (db : Session) (u a : Z) : nat :=
  List.length (filter (is_saved u a) (saved_articles db)).

(** The slug in the words of the claim: every space becomes a hyphen and
    every apostrophe goes, in the lowercased title. *)
Fixpoint dash_spaces (s : string) : string :=
  match s with
  | EmptyString => EmptyString
  | String c s' => String (if Ascii.eqb c " " then "-"%char else c) (dash_spaces s')
  end.

Fixpoint drop_apostrophes (s : string) : string :=
  match s with
  | EmptyString => EmptyString
  | String c s' =>
    if Ascii.eqb c "'" then drop_apostrophes s' else String c (drop_apostrophes s')
  end.

Definition slug_in_words (title : string) : string :=
  drop_apostrophes (dash_spaces (Py.lower title)).

(** The characters of a text, for statements about each of them. *)
Fixpoint chars (s : string) : list ascii :=
  match s with
  | EmptyString => []
  | String c s' => c :: chars s'
  end.

(** The mutating actions on articles, each with its endpoint. *)
Inductive action : Type :=
| Create (structured : option string) (article_in : blog_schemas.ArticleCreate)
| CreateSimple (article_in : blog_schemas.ArticleCreate)
| Update (article_id : Z) (article_in : blog_schemas.ArticleUpdate)
| Delete (article_id : Z)
| UploadImage (uuid8 : string) (file : blog_schemas.UploadFile).

Inductive answer : Type :=
| AnArticle (a : Article.t)
| AMessage (text : string).

Section Actions.
Context {F : FileSystem}.

(** The endpoint of each action, on the session and the image directory. *)
Definition perform (act : action) (current_user : User.t) (now : Z)
           (st : Session * Disk) : result answer * (Session * Disk) :=
  let (db, disk) := st in
  match act with
  | Create structured article_in =>
    let (r, db') := blog.create_article db now structured article_in current_user in
    (bind r (fun a => Return (AnArticle a)), (db', disk))
  | CreateSimple article_in =>
    let (r, db') := blog.create_article_simple db now article_in current_user in
    (bind r (fun a => Return (AnArticle a)), (db', disk))
  | Update article_id article_in =>
    let (r, db') := blog.update_article db article_id article_in current_user in
    (bind r (fun a => Return (AnArticle a)), (db', disk))
  | Delete article_id =>
    let (r, db') := blog.delete_article db article_id current_user in
    (bind r (fun m => Return (AMessage m)), (db', disk))
  | UploadImage uuid8 file =>
    let (r, disk') := blog.upload_image disk uuid8 file current_user in
    (bind r (fun url => Return (AMessage url)), (db, disk'))
  end.

Definition forbidden_detail (act : action) : string :=
  match act with
  | Create _ _ | CreateSimple _ => "Only admins can create articles"
  | Update _ _ => "Only admins can update articles"
  | Delete _ => "Only admins can delete articles"
  | UploadImage _ _ => "Only admins can upload images"
  end.

(** The slug [create_article] stores. *)
Definition slug_stored (article_in : blog_schemas.ArticleCreate) : string :=
  match blog_schemas.slug article_in with
  | Some s => if negb (Py.truthy_str (Some s))
              then blog.slug_of_title (blog_schemas.title article_in) else s
  | None => blog.slug_of_title (blog_schemas.title article_in)
  end.



End Actions.

Section ListingVocabulary.
Context {J : Jose} {P : Pydantic}.

(** The claim as the specification words it: listing all articles needs
    a valid bearer token. *)
Definition list_all_requires_token : Prop :=
  forall (db : Session) (now : Z) (authorization : option string)
         (skip limit : option Z),
    (forall u, routes.current_user db now authorization <> Return u) ->
    succeeds (routes.GET_articles db now authorization skip limit) = false.

End ListingVocabulary.

(** ** Vocabulary of the further properties *)

(** The emails of the rows that have one. *)
Fixpoint emails (rows : list User.t) : list string :=
  match rows with
  | [] => []
  | u :: rest =>
    match User.email u with
    | Some e => e :: emails rest
    | None => emails rest
    end
  end.

(** What [update_article] does to each row. *)
Definition updated_row (article_id : Z) (article_in : blog_schemas.ArticleUpdate)
           (a : Article.t) : Article.t :=
  if Article.id a =? article_id then blog.apply_update article_in a else a.

(** The slugs of the rows that have one. *)
Fixpoint slugs (rows : list Article.t) : list string :=
  match rows with
  | [] => []
  | a :: rest =>
    match Article.slug a with
    | Some s => s :: slugs rest
    | None => slugs rest
    end
  end.

(** Ids pairwise distinct and slugs pairwise distinct. *)
Definition article_keys (db : Session) : Prop :=
  NoDup (map Article.id (articles db)) /\ NoDup (slugs (articles db)).

(** [sep] occurs somewhere in [s]. *)
Fixpoint occurs (sep s : string) : bool :=
  Py.startswith sep s
  || match s with
     | EmptyString => false
     | String _ s' => occurs sep s'
     end.

Section ImportStep.
Variables (A E : Type) (key : A -> Z) (matches : E -> A -> bool).

(** The common shape of the three loop bodies of the import. *)
Definition step_with (make : E -> A) (rows : list A) (e : E) : option (list A) :=
  match find (matches e) rows with
  | Some existing => Some rows
  | None => scripts.add_with_id key (make e) rows
  end.

End ImportStep.

Definition user_matches (e : scripts.user_data) (u : User.t) : bool :=
  scripts.col_is_s (User.email u) (scripts.ud_email e).

Definition article_matches (e : scripts.article_data) (a : Article.t) : bool :=
  scripts.col_is_s (Article.slug a) (scripts.ad_slug e).

Definition saved_matches (e : scripts.saved_data) (s : SavedArticle.t) : bool :=
  scripts.col_is_Z (SavedArticle.user_id s) (scripts.sd_user_id e)
  && scripts.col_is_Z (SavedArticle.article_id s) (scripts.sd_article_id e).

(** Rows in strictly increasing order of their key. *)
Fixpoint ascending {A : Type} (key : A -> Z) (rows : list A) : Prop :=
  match rows with
  | [] => True
  | x :: rest => (forall y, In y rest -> key x < key y) /\ ascending key rest
  end.

(** The entry the export writes for a row of each table. *)
Definition user_entry (u : User.t) : scripts.user_data :=
  scripts.mkUserData (User.id u) (User.email u) (User.full_name u)
                     (User.hashed_password u) (User.is_active u)
                     (User.is_admin u) (Some (User.language u)).

Definition article_entry (a : Article.t) : scripts.article_data :=
  scripts.mkArticleData (Article.id a) (Article.title a) (Article.slug a)
                        (Article.content a) (Article.excerpt a)
                        (Article.category a) (Article.image_url a)
                        (Article.image_slug a) (Article.images a)
                        (Article.structured_content a) (Article.author_id a)
                        (Some (Article.is_published a)) (Article.created_at a).

Definition saved_entry (s : SavedArticle.t) : scripts.saved_data :=
  scripts.mkSavedData (SavedArticle.id s) (SavedArticle.user_id s)
                      (SavedArticle.article_id s).

(** ** Sample sessions

    Users and articles in the manner of the test fixtures, with passwords
    hashed by the library model. *)

Module Scenario.

Definition t0 : Z := 1700000000000000.

Definition registration : schemas.UserCreate :=
  schemas.mkUserCreate "a@x.com" "secret123" "A" None None None.

Definition alice : User.t :=
  User.mk 1 (Some "a@x.com") (Some "A") (Some (Model.hash "NaCl" "secret123"))
          (Some true) (Some false) (Some "it").

Definition admin : User.t :=
  User.mk 2 (Some "admin@example.com") (Some "Admin User")
          (Some (Model.hash "NaCl" "admin123")) (Some true) (Some true) (Some "it").

Definition draft : Article.t :=
  Article.mk 1 (Some "Draft") (Some "draft") (Some "Content") (Some "Excerpt")
             None None None None None (Some 2) (Some false) (Some t0).

Definition with_alice : Session := mkSession [alice] [] [].

Definition with_draft : Session := mkSession [alice; admin] [draft] [].

Definition teide : blog_schemas.ArticleCreate :=
  blog_schemas.mkArticleCreate "Teide's Peak" None "Content" None None None None
                               None None None.

Definition teide_row : Article.t :=
  Article.mk 2 (Some "Teide's Peak") (Some "teides-peak") (Some "Content")
             (Some "Content...") None None None (Some []) None None
             (Some false) (Some t0).

(** The body of the registration of alice, and the same with the domain
    in capitals. *)
Definition registration_body : schemas.UserCreateBody :=
  schemas.mkUserCreateBody "a@x.com" "secret123" "A" None None None.

Definition capital_body : schemas.UserCreateBody :=
  schemas.mkUserCreateBody "a@X.com" "secret123" "A" None None None.




(** A token without subject, as the test of the malformed payload makes it. *)
Definition anonymous_token : string :=
  Model.sign (Claims.mk (Some (Py.timegm (t0 + Py.minutes 30))) None)
             settings.SECRET_KEY settings.ALGORITHM.

End Scenario.

(** Further sessions and requests for the properties of the endpoints. *)

Module Samples.

Definition bob : User.t :=
  User.mk 3 (Some "b@x.com") (Some "B") (Some (Model.hash "NaCl" "hunter2"))
          (Some true) (Some false) (Some "it").

Definition bookmark : SavedArticle.t := SavedArticle.mk 1 (Some 1) (Some 1).

Definition with_bookmark : Session :=
  mkSession [Scenario.alice; Scenario.admin; bob] [Scenario.draft] [bookmark].

Definition without_bookmark : Session :=
  mkSession [Scenario.alice; Scenario.admin; bob] [Scenario.draft] [].

Definition with_teide : Session :=
  mkSession [Scenario.alice; Scenario.admin]
            [Scenario.draft; Scenario.teide_row] [].

Definition second_registration : schemas.UserCreate :=
  schemas.mkUserCreate "b@x.com" "hunter2" "B" (Some true) (Some true) None.

Definition bob_registered : User.t :=
  User.mk 2 (Some "b@x.com") (Some "B") (Some (Model.hash "NaCl" "hunter2"))
          (Some true) (Some false) (Some "it").

Definition publish : blog_schemas.ArticleUpdate :=
  blog_schemas.mkArticleUpdate None None None None None (Some (Some true)).

Definition published_draft : Article.t :=
  Article.mk 1 (Some "Draft") (Some "draft") (Some "Content") (Some "Excerpt")
             None None None None None (Some 2) (Some true) (Some Scenario.t0).

Definition with_published : Session :=
  mkSession [Scenario.alice; Scenario.admin] [published_draft] [].

Definition photo : blog_schemas.UploadFile :=
  blog_schemas.mkUploadFile (Some "teide.jpg") (Some "image/jpeg") "pixels".

Definition simple_request : blog_schemas.ArticleCreate :=
  blog_schemas.mkArticleCreate "Anaga" (Some "anaga") "Content" None None None
                               None None None (Some true).

Definition anaga_row : Article.t :=
  Article.mk 2 (Some "Anaga") (Some "anaga") (Some "Content") None None None
             None None None (Some 2) (Some true) (Some Scenario.t0).

End Samples.

(** * Properties *)

(** ** The library models meet the laws *)

Module ModelLaws.
Import Model.

Lemma append_assoc (a b c : string) : (a ++ b) ++ c = a ++ (b ++ c).
Proof. induction a as [|x a IH]; simpl; [reflexivity | now rewrite IH]. Qed.

Lemma untally_tally (n : nat) (r : string) :
  untally (tally n ++ r) = Some (n, r).
Proof.
  induction n as [|n IH]; simpl; [reflexivity|].
  now rewrite IH.
Qed.

Lemma take_append (s r : string) : take (String.length s) (s ++ r) = Some (s, r).
Proof.
  induction s as [|c s IH]; simpl; [reflexivity|].
  now rewrite IH.
Qed.

Lemma unframe_frame (s r : string) : unframe (frame s ++ r) = Some (s, r).
Proof.
  unfold unframe, frame.
  rewrite append_assoc, untally_tally.
  apply take_append.
Qed.

Lemma append_empty (s : string) : s ++ "" = s.
Proof. induction s as [|c s IH]; simpl; [reflexivity | now rewrite IH]. Qed.

Lemma parse_int_str (n : Z) : parse_int (Py.str n) = Some n.
Proof.
  unfold parse_int, Py.str.
  rewrite NilZero.isi.
  - simpl. now rewrite DecimalZ.of_to.
  - destruct n; simpl; try discriminate.
    intros E. injection E as E. now apply DecimalPos.Unsigned.to_uint_nonnil in E.
  - destruct n; simpl; try discriminate.
    intros E. injection E as E. now apply DecimalPos.Unsigned.to_uint_nonnil in E.
Qed.

Lemma verify_sign (c : Claims.t) (key : string) :
  verify (sign c key "HS256") key ["HS256"] = Some c.
Proof.
  unfold verify, sign.
  rewrite !unframe_frame.
  rewrite <- (append_empty (frame (field_of (Claims.sub c)))).
  rewrite unframe_frame.
  rewrite String.eqb_refl. simpl.
  destruct c as [[e|] [s|]]; simpl; try rewrite parse_int_str; reflexivity.
Qed.

Lemma check_hash (salt password : string) :
  check password (Some (hash salt password)) = Some true.
Proof.
  unfold check, hash. rewrite unframe_frame. now rewrite String.eqb_refl.
Qed.

#[export] Instance jose : Jose :=
  {| jws_sign := sign; jws_verify := verify; jws_verify_sign := verify_sign |}.

#[export] Instance pydantic : Pydantic :=
  {| int_validate := parse_int;
     email_validate := validate_email;
     int_validate_str := parse_int_str |}.

#[export] Instance passlib : Passlib :=
  {| pwd_context_hash := hash;
     pwd_context_verify := check;
     pwd_context_verify_hash := check_hash |}.

#[export] Instance filesystem : FileSystem :=
  {| Disk := list (string * string); write_file := write |}.

End ModelLaws.

(** ** Rows and keys *)

Lemma find_app_none {A : Type} (p : A -> bool) (l : list A) (x : A) :
  find p l = None -> find p (l ++ [x]) = if p x then Some x else None.
Proof.
  induction l as [|y l IH]; simpl; [reflexivity|].
  destruct (p y); [discriminate | exact IH].
Qed.

Lemma find_app_some {A : Type} (p : A -> bool) (l l' : list A) (x : A) :
  find p l = Some x -> find p (l ++ l') = Some x.
Proof.
  induction l as [|y l IH]; simpl; [discriminate|].
  destruct (p y); [trivial | exact IH].
Qed.

Lemma find_none_existsb {A : Type} (p : A -> bool) (l : list A) :
  find p l = None <-> existsb p l = false.
Proof.
  induction l as [|y l IH]; simpl; [tauto|].
  destruct (p y); simpl; [split; discriminate | exact IH].
Qed.

Lemma next_id_above (ids : list Z) (i : Z) : In i ids -> i < next_id ids.
Proof.
  unfold next_id.
  induction ids as [|j ids IH]; cbn [fold_right In]; [tauto|].
  intros [->|Hin]; [lia|].
  specialize (IH Hin). lia.
Qed.

Lemma next_id_positive (ids : list Z) : 0 < next_id ids.
Proof.
  unfold next_id.
  induction ids as [|j ids IH]; cbn [fold_right]; lia.
Qed.

Lemma user_by_id_fresh (db : Session) :
  find (fun u => User.id u =? next_id (map User.id (users db))) (users db) = None.
Proof.
  apply find_none_existsb.
  destruct (existsb _ _) eqn:E; [|reflexivity].
  apply existsb_exists in E as (u & Hin & Heq).
  apply Z.eqb_eq in Heq.
  pose proof (next_id_above (map User.id (users db)) (User.id u)
                            (in_map User.id _ _ Hin)).
  lia.
Qed.






(** ** Seconds and microseconds *)

Lemma timegm_monotone (a b : Z) : a <= b -> Py.timegm a <= Py.timegm b.
Proof. unfold Py.timegm. intros. apply Z.div_le_mono; lia. Qed.

Lemma timegm_seconds (a s : Z) : Py.timegm (a + Py.seconds s) = Py.timegm a + s.
Proof. unfold Py.timegm, Py.seconds. apply Z.div_add. lia. Qed.

Lemma timegm_minutes (a m : Z) : Py.timegm (a + Py.minutes m) = Py.timegm a + 60 * m.
Proof.
  unfold Py.timegm, Py.minutes.
  replace (m * 60000000) with ((60 * m) * 1000000) by lia.
  apply Z.div_add. lia.
Qed.

(** ** The authentication gate *)

Section Gate.
Context {J : Jose} {P : Pydantic}.

Lemma TokenPayload_of_none (c : Claims.t) :
  schemas.TokenPayload_of c = None <->
  exists s, Claims.sub c = Some s /\ int_validate s = None.
Proof.
  unfold schemas.TokenPayload_of.
  destruct (Claims.sub c) as [s|].
  - destruct (int_validate s) eqn:E.
    + split; [discriminate|]. intros (s' & [= <-] & E'). congruence.
    + split; [|reflexivity]. intros _. now exists s.
  - split; [discriminate|]. intros (s & Hs & _). discriminate.
Qed.

Lemma rejected_not_accepted (now : Z) (token : string) :
  rejected now token <-> ~ exists s, accepted now token s.
Proof.
  unfold rejected, malformed_or_forged, expired, malformed_subject, accepted.
  destruct (jws_verify token _ _) as [c|] eqn:V.
  - split.
    + intros [E|[(c' & e & [= <-] & He & Hlt)|(c' & s & [= <-] & Hs & Hv)]]
             (s' & c'' & [= <-] & Hexp & Hp).
      * discriminate.
      * specialize (Hexp e He). lia.
      * assert (schemas.TokenPayload_of c = None) as E
            by (apply TokenPayload_of_none; eauto).
        congruence.
    + intros Hno. right.
      destruct (Claims.exp c) as [e|] eqn:He.
      * destruct (Z.ltb_spec e (Py.timegm now)) as [Hlt|Hge].
        -- left. now exists c, e.
        -- right. destruct (schemas.TokenPayload_of c) as [[s]|] eqn:Hp.
           ++ exfalso. apply Hno. exists s, c. repeat split; trivial.
              intros e' He'. assert (e' = e) by congruence. lia.
           ++ apply TokenPayload_of_none in Hp as (s & Hs & Hv). now exists c, s.
      * right. destruct (schemas.TokenPayload_of c) as [[s]|] eqn:Hp.
        -- exfalso. apply Hno. exists s, c. repeat split; trivial. congruence.
        -- apply TokenPayload_of_none in Hp as (s & Hs & Hv). now exists c, s.
  - split; [|now left].
    intros _ (s & c & E & _). discriminate.
Qed.

Lemma get_current_user_accepted (db : Session) (now : Z) (token : string)
      (s : option Z) :
  accepted now token s ->
  deps.get_current_user db now token =
  if binds s
  then match user_by_id db s with
       | None => HTTPException 404 "User not found"
       | Some user => Return user
       end
  else Unhandled "OverflowError".
Proof.
  intros (c & V & Hexp & Hp).
  unfold deps.get_current_user, jwt.decode. rewrite V.
  destruct (Claims.exp c) as [e|] eqn:He.
  - destruct (Z.ltb_spec e (Py.timegm now)) as [Hlt|Hge].
    + specialize (Hexp e eq_refl). lia.
    + rewrite Hp. cbn [schemas.sub]. now destruct (binds s).
  - rewrite Hp. cbn [schemas.sub]. now destruct (binds s).
Qed.

Lemma get_current_user_rejected (db : Session) (now : Z) (token : string) :
  rejected now token ->
  deps.get_current_user db now token =
  HTTPException 403 "Could not validate credentials".
Proof.
  unfold deps.get_current_user, jwt.decode.
  intros [E|[(c & e & V & He & Hlt)|(c & s & V & Hs & Hv)]].
  - unfold malformed_or_forged in E. now rewrite E.
  - rewrite V, He. destruct (Z.ltb_spec e (Py.timegm now)); [reflexivity | lia].
  - rewrite V.
    assert (schemas.TokenPayload_of c = None) as Hp
        by (apply TokenPayload_of_none; eauto).
    destruct (Claims.exp c) as [e|]; [destruct (e <? Py.timegm now)|];
      now rewrite ?Hp.
Qed.



End Gate.

Section GateClaims.
Context {J : Jose} {P : Pydantic}.


(** C9.  A token that verifies under the server's key and algorithm, is
    not expired and carries no subject is not refused: [TokenPayload] reads
    it with [sub = None], the lookup finds no user, and the gate fails with
    404 "User not found". *)
Theorem get_current_user_without_subject
        (db : Session) (now : Z) (token : string) (c : Claims.t) :
  jws_verify token settings.SECRET_KEY [settings.ALGORITHM] = Some c ->
  Claims.sub c = None ->
  (forall e, Claims.exp c = Some e -> Py.timegm now <= e) ->
  schemas.TokenPayload_of c = Some (schemas.mkTokenPayload None)
  /\ user_by_id db None = None
  /\ ~ rejected now token
  /\ deps.get_current_user db now token = HTTPException 404 "User not found".
Proof.
  intros V S E.
  assert (schemas.TokenPayload_of c = Some (schemas.mkTokenPayload None)) as HP
      by (unfold schemas.TokenPayload_of; now rewrite S).
  assert (accepted now token None) as A by (exists c; auto).
  repeat split; trivial.
  - intros R. apply (proj1 (rejected_not_accepted now token) R). now exists None.
  - now rewrite (get_current_user_accepted db now token None A).
Qed.

(** C3.  Whatever the subject and the instant of issue, a token issued
    with a time-to-live of minus one second carries a valid signature of
    the server, and at any later instant [jwt.decode] raises
    [ExpiredSignatureError] and the gate fails with 403. *)
Theorem expired_token_unauthenticated
        (db : Session) (subject now_issue now_verify : Z) :
  now_issue <= now_verify ->
  let token :=
    security.create_access_token now_issue subject (Some (Py.seconds (-1))) in
  jws_verify token settings.SECRET_KEY [settings.ALGORITHM]
  = Some (Claims.mk (Some (Py.timegm now_issue - 1)) (Some (Py.str subject)))
  /\ jwt.decode now_verify token settings.SECRET_KEY [settings.ALGORITHM]
     = inl jwt.ExpiredSignatureError
  /\ deps.get_current_user db now_verify token
     = HTTPException 403 "Could not validate credentials".
Proof.
  intros Hle token.
  assert (jws_verify token settings.SECRET_KEY [settings.ALGORITHM]
          = Some (Claims.mk (Some (Py.timegm now_issue - 1))
                            (Some (Py.str subject)))) as V.
  { subst token. unfold security.create_access_token, jwt.encode.
    cbn [Py.truthy_timedelta jwt.exp_at jwt.subject option_map].
    replace (Py.seconds (-1) =? 0) with false by reflexivity.
    cbn [negb]. rewrite (timegm_seconds now_issue (-1)).
    replace (Py.timegm now_issue + -1) with (Py.timegm now_issue - 1) by lia.
    apply jws_verify_sign. }
  assert (jwt.decode now_verify token settings.SECRET_KEY [settings.ALGORITHM]
          = inl jwt.ExpiredSignatureError) as D.
  { unfold jwt.decode. rewrite V. cbn [Claims.exp].
    pose proof (timegm_monotone _ _ Hle).
    destruct (Z.ltb_spec (Py.timegm now_issue - 1) (Py.timegm now_verify));
      [reflexivity | lia]. }
  repeat split; trivial.
  unfold deps.get_current_user. now rewrite D.
Qed.

End GateClaims.

(** ** Login *)

Lemma find_in {A : Type} (p : A -> bool) (l : list A) (x : A) :
  In x l -> p x = true -> exists y, find p l = Some y.
Proof.
  intros Hin Hp. destruct (find p l) as [y|] eqn:E; [now exists y|].
  pose proof (find_none p l E x Hin). congruence.
Qed.

Section LoginClaims.
Context {J : Jose} {P : Pydantic} {L : Passlib}.






Lemma login_success (db : Session) (now : Z) (e pw : string) (u : User.t) :
  user_by_email db e = Some u ->
  security.verify_password pw (User.hashed_password u) = Return true ->
  Py.truthy_bool (User.is_active u) = true ->
  auth.login_access_token db now (auth.mkForm e pw)
  = Return (schemas.mkToken (issue now (User.id u)) "bearer").
Proof.
  intros E V A. unfold auth.login_access_token. cbn [auth.username auth.password].
  rewrite E, V. cbn [bind negb]. now rewrite A.
Qed.

Lemma verify_password_hash (salt password : string) :
  security.verify_password password
                           (Some (security.get_password_hash salt password))
  = Return true.
Proof.
  unfold security.verify_password, security.get_password_hash.
  now rewrite pwd_context_verify_hash.
Qed.

Lemma UserCreate_of_some (body : schemas.UserCreateBody)
      (user_in : schemas.UserCreate) :
  schemas.UserCreate_of body = Some user_in ->
  email_validate (schemas.body_email body) = Some (schemas.email user_in)
  /\ schemas.password user_in = schemas.body_password body
  /\ schemas.full_name user_in = schemas.body_full_name body.
Proof.
  unfold schemas.UserCreate_of.
  destruct (email_validate (schemas.body_email body)) as [address|];
    [|discriminate].
  intros [= <-]. repeat split.
Qed.

Lemma issue_claims (now i : Z) :
  issue now i
  = jws_sign (Claims.mk (Some (Py.timegm now + 60 * settings.ACCESS_TOKEN_EXPIRE_MINUTES))
                        (Some (Py.str i)))
             settings.SECRET_KEY settings.ALGORITHM.
Proof.
  unfold issue, security.create_access_token, jwt.encode.
  cbn [Py.truthy_timedelta jwt.exp_at jwt.subject option_map].
  replace (Py.minutes settings.ACCESS_TOKEN_EXPIRE_MINUTES =? 0) with false
    by reflexivity.
  cbn [negb]. now rewrite timegm_minutes.
Qed.

Lemma issue_accepted (now_issue now_verify i : Z) :
  Py.timegm now_verify
  <= Py.timegm now_issue + 60 * settings.ACCESS_TOKEN_EXPIRE_MINUTES ->
  accepted now_verify (issue now_issue i) (Some i).
Proof.
  intros Hle. rewrite issue_claims.
  eexists. split; [apply jws_verify_sign|]. cbn [Claims.exp]. split.
  - intros e [= <-]. exact Hle.
  - unfold schemas.TokenPayload_of. cbn [Claims.sub].
    now rewrite int_validate_str.
Qed.

Lemma register_user_returns (db db' : Session) (salt : string)
      (user_in : schemas.UserCreate) (u : User.t) :
  auth.register_user db salt user_in = (Return u, db') ->
  user_by_email db (schemas.email user_in) = None
  /\ u = User.mk (next_id (map User.id (users db)))
                 (Some (schemas.email user_in))
                 (Some (schemas.full_name user_in))
                 (Some (security.get_password_hash salt (schemas.password user_in)))
                 (Some true) (Some false) (Some "it")
  /\ db' = mkSession (users db ++ [u]) (articles db) (saved_articles db).
Proof.
  unfold auth.register_user.
  destruct (user_by_email db (schemas.email user_in)) eqn:E; [discriminate|].
  unfold add_user. cbn [User.email email_taken].
  unfold user_by_email in E. apply find_none_existsb in E. rewrite E.
  intros [= <- <-]. repeat split.
Qed.

Lemma register_user_total (db : Session) (salt : string)
      (user_in : schemas.UserCreate) :
  (exists u db', auth.register_user db salt user_in = (Return u, db'))
  \/ auth.register_user db salt user_in
     = (HTTPException 400
          "The user with this username already exists in the system.", db).
Proof.
  unfold auth.register_user.
  destruct (user_by_email db (schemas.email user_in)) eqn:E; [now right|].
  left. unfold add_user. cbn [User.email email_taken].
  unfold user_by_email in E. apply find_none_existsb in E. rewrite E.
  eauto.
Qed.

(** C5, as amended.  After a registration whose body validated and
    which returned the principal [u], the email of [u] is the address of
    the body as [EmailStr] keeps it, and a login with that address and the
    password of the body succeeds; the token it returns is the signature of
    the claims [sub = str(u.id)] and [exp = now + 30 minutes]; and until
    that expiry the token is accepted with subject [u.id], so the gate
    returns [u], the id being an integer of 64 bits. *)
Theorem login_after_registration
        (db db' : Session) (salt : string) (body : schemas.UserCreateBody)
        (user_in : schemas.UserCreate) (u : User.t) (now_login now_verify : Z) :
  schemas.UserCreate_of body = Some user_in ->
  auth.register_user db salt user_in = (Return u, db') ->
  sqlite_integer (User.id u) = true ->
  Py.timegm now_verify <= Py.timegm now_login + 1800 ->
  let token := issue now_login (User.id u) in
  email_validate (schemas.body_email body) = Some (schemas.email user_in)
  /\ User.email u = Some (schemas.email user_in)
  /\ auth.login_access_token
       db' now_login
       (auth.mkForm (schemas.email user_in) (schemas.body_password body))
     = Return (schemas.mkToken token "bearer")
  /\ token = jws_sign (Claims.mk (Some (Py.timegm now_login + 1800))
                                 (Some (Py.str (User.id u))))
                      settings.SECRET_KEY settings.ALGORITHM
  /\ accepted now_verify token (Some (User.id u))
  /\ deps.get_current_user db' now_verify token = Return u.
Proof.
  intros B R Hid Hle token.
  apply UserCreate_of_some in B as (Hv & Hpw & _).
  apply register_user_returns in R as (E & Hu & ->).
  assert (user_by_email (mkSession (users db ++ [u]) (articles db)
                                   (saved_articles db))
                        (schemas.email user_in) = Some u) as E'.
  { unfold user_by_email in *. cbn [users].
    rewrite (find_app_none _ _ u E). subst u. cbn [User.email col_eqs].
    now rewrite String.eqb_refl. }
  assert (accepted now_verify token (Some (User.id u))) as A
      by (apply issue_accepted; exact Hle).
  split; [exact Hv|]. split; [subst u; reflexivity|]. split; [|split; [|split]].
  - apply login_success; trivial.
    + subst u. cbn [User.hashed_password]. rewrite <- Hpw.
      apply verify_password_hash.
    + subst u. reflexivity.
  - subst token. now rewrite issue_claims.
  - exact A.
  - rewrite (get_current_user_accepted _ _ _ _ A).
    cbn [binds]. rewrite Hid.
    cbn [user_by_id users].
    assert (User.id u = next_id (map User.id (users db))) as Hn
        by (subst u; reflexivity).
    rewrite Hn, (find_app_none _ _ u (user_by_id_fresh db)).
    now rewrite <- Hn, Z.eqb_refl.
Qed.

(** C6.  When a stored user already has the email of a registration
    request, the request fails with 400 "The user with this username
    already exists in the system." whatever its password and name, and the
    session, hence every stored record, is left as it was. *)
Theorem duplicate_registration_rejected
        (db : Session) (salt : string) (user_in : schemas.UserCreate)
        (u : User.t) :
  In u (users db) ->
  User.email u = Some (schemas.email user_in) ->
  auth.register_user db salt user_in
  = (HTTPException 400
       "The user with this username already exists in the system.", db).
Proof.
  intros Hin He. unfold auth.register_user, user_by_email.
  destruct (find_in (fun v => col_eqs (User.email v) (schemas.email user_in))
                    (users db) u Hin) as (y & ->); [|reflexivity].
  rewrite He. apply String.eqb_refl.
Qed.

End LoginClaims.

(** ** Bookmarks *)

Lemma find_none_filter {A : Type} (p : A -> bool) (l : list A) :
  find p l = None -> filter p l = [].
Proof.
  induction l as [|x l IH]; simpl; [reflexivity|].
  destruct (p x); [discriminate | exact IH].
Qed.

Lemma find_some_filter {A : Type} (p : A -> bool) (l : list A) (x : A) :
  find p l = Some x -> exists rest, filter p l = x :: rest.
Proof.
  induction l as [|y l IH]; simpl; [discriminate|].
  destruct (p y); [|exact IH].
  intros [= ->]. eauto.
Qed.

Lemma save_article_saved (db : Session) (article_id : Z) (user : User.t)
      (saved : SavedArticle.t) :
  saved_by db (User.id user) article_id = Some saved ->
  article_by_id db article_id <> None ->
  blog.save_article db article_id user = (Return saved, db).
Proof.
  intros S A. unfold blog.save_article.
  destruct (article_by_id db article_id); [now rewrite S | contradiction].
Qed.

Lemma save_article_new (db : Session) (article_id : Z) (user : User.t) :
  saved_by db (User.id user) article_id = None ->
  article_by_id db article_id <> None ->
  let saved := SavedArticle.mk (next_id (map SavedArticle.id (saved_articles db)))
                               (Some (User.id user)) (Some article_id) in
  let db1 := mkSession (users db) (articles db) (saved_articles db ++ [saved]) in
  blog.save_article db article_id user = (Return saved, db1)
  /\ saved_by db1 (User.id user) article_id = Some saved
  /\ bookmarks db1 (User.id user) article_id = 1%nat.
Proof.
  intros S A saved db1. unfold blog.save_article.
  destruct (article_by_id db article_id); [|contradiction].
  rewrite S. unfold add_saved_article. fold saved. fold db1.
  assert (is_saved (User.id user) article_id saved = true) as Hs
      by (unfold is_saved, col_eqZ; cbn; now rewrite !Z.eqb_refl).
  repeat split.
  - unfold saved_by in *. subst db1. cbn [saved_articles].
    now rewrite (find_app_none _ _ saved S), Hs.
  - unfold bookmarks. subst db1. cbn [saved_articles].
    rewrite filter_app, (find_none_filter _ _ S). cbn [filter app].
    now rewrite Hs.
Qed.

(** The endpoint function, before its answer is read through the response
    model: for every user and every existing article, in a session that
    holds at most one bookmark of that user for that article, saving the
    article twice in a row returns both times, the second call returns the
    record of the first and leaves the session alone, and afterwards the
    session holds exactly one bookmark with that user id and article id. *)
Lemma save_article_idempotent
        (db : Session) (article_id : Z) (current_user : User.t) :
  article_by_id db article_id <> None ->
  (bookmarks db (User.id current_user) article_id <= 1)%nat ->
  exists saved db1,
    blog.save_article db article_id current_user = (Return saved, db1)
    /\ blog.save_article db1 article_id current_user = (Return saved, db1)
    /\ In saved (saved_articles db1)
    /\ SavedArticle.user_id saved = Some (User.id current_user)
    /\ SavedArticle.article_id saved = Some article_id
    /\ bookmarks db1 (User.id current_user) article_id = 1%nat.
Proof.
  intros A Hle.
  destruct (saved_by db (User.id current_user) article_id) as [saved|] eqn:S.
  - exists saved, db.
    pose proof (save_article_saved db article_id current_user saved S A) as R.
    unfold saved_by in S.
    destruct (find_some _ _ S) as [Hin Hs].
    destruct (find_some_filter _ _ _ S) as (rest & Hf).
    unfold is_saved, col_eqZ in Hs.
    destruct (SavedArticle.user_id saved) as [x|] eqn:Ux; [|discriminate].
    destruct (SavedArticle.article_id saved) as [y|] eqn:Ay;
      [|rewrite andb_false_r in Hs; discriminate].
    apply andb_prop in Hs as [Hx Hy].
    apply Z.eqb_eq in Hx, Hy. subst x y.
    repeat split; trivial.
    unfold bookmarks in *. rewrite Hf in *. cbn [List.length] in *. lia.
  - destruct (save_article_new db article_id current_user S A) as (R & S1 & C).
    eexists. eexists. split; [exact R|].
    repeat split; trivial.
    + apply save_article_saved; [exact S1 | exact A].
    + cbn [saved_articles]. apply in_or_app. right. now left.
Qed.

(** Saving keeps the bookmarks of every pair at one at most. *)
Lemma save_article_keeps_unique
      (db db1 : Session) (article_id : Z) (user : User.t) (r : result SavedArticle.t) :
  (forall u a, bookmarks db u a <= 1)%nat ->
  blog.save_article db article_id user = (r, db1) ->
  forall u a, (bookmarks db1 u a <= 1)%nat.
Proof.
  intros Inv R u a. unfold blog.save_article in R.
  destruct (article_by_id db article_id); [|injection R as _ <-; apply Inv].
  destruct (saved_by db (User.id user) article_id) eqn:S;
    [injection R as _ <-; apply Inv|].
  unfold add_saved_article in R. injection R as _ <-.
  unfold bookmarks. cbn [saved_articles]. rewrite filter_app, List.length_app.
  cbn [filter].
  destruct (is_saved u a (SavedArticle.mk _ _ _)) eqn:E.
  - unfold is_saved, col_eqZ in E.
    cbn [SavedArticle.user_id SavedArticle.article_id] in E.
    apply andb_prop in E as [E1 E2]. apply Z.eqb_eq in E1, E2. subst u a.
    unfold saved_by in S. rewrite (find_none_filter _ _ S). cbn. lia.
  - cbn [List.length]. specialize (Inv u a). unfold bookmarks in Inv. lia.
Qed.

Lemma save_article_users (db db1 : Session) (article_id : Z) (user : User.t)
      (r : result SavedArticle.t) :
  blog.save_article db article_id user = (r, db1) -> users db1 = users db.
Proof.
  unfold blog.save_article.
  destruct (article_by_id db article_id); [|now intros [= _ <-]].
  destruct (saved_by db (User.id user) article_id); [now intros [= _ <-]|].
  unfold add_saved_article. now intros [= _ <-].
Qed.

Lemma current_user_users {J : Jose} {P : Pydantic} (db db1 : Session) (now : Z)
      (authorization : option string) :
  users db1 = users db ->
  routes.current_user db1 now authorization
  = routes.current_user db now authorization.
Proof.
  intros E. unfold routes.current_user, deps.get_current_user, user_by_id.
  now rewrite E.
Qed.

(** C7.  What the route makes of it.  [POST /blog/save/{article_id}]
    declares [response_model=schemas.SavedArticle], whose field [article]
    is required and is no attribute of the row the endpoint returns.  So
    for a principal and an existing article, in a session with at most one
    bookmark of the pair, the endpoint returns its record both times and
    the session holds exactly one bookmark afterwards, yet the route answers
    neither call with success: both end in the unhandled
    [ResponseValidationError], a 500. *)
Theorem save_route_answers_500
        {J : Jose} {P : Pydantic}
        (db : Session) (now : Z) (authorization : option string)
        (article_id : Z) (u : User.t) :
  routes.current_user db now authorization = Return u ->
  article_by_id db article_id <> None ->
  (bookmarks db (User.id u) article_id <= 1)%nat ->
  exists saved db1,
    blog.save_article db article_id u = (Return saved, db1)
    /\ blog.save_article db1 article_id u = (Return saved, db1)
    /\ routes.POST_save db now authorization article_id
       = (Unhandled "ResponseValidationError", db1)
    /\ routes.POST_save db1 now authorization article_id
       = (Unhandled "ResponseValidationError", db1)
    /\ status (fst (routes.POST_save db now authorization article_id)) = 500
    /\ bookmarks db1 (User.id u) article_id = 1%nat.
Proof.
  intros Hu A Hle.
  destruct (save_article_idempotent db article_id u A Hle)
    as (saved & db1 & S1 & S2 & _ & _ & _ & C).
  exists saved, db1.
  assert (routes.POST_save db now authorization article_id
          = (Unhandled "ResponseValidationError", db1)) as R1.
  { unfold routes.POST_save, routes.with_user. now rewrite Hu, S1. }
  split; [exact S1|]. split; [exact S2|]. split; [exact R1|].
  split; [|split; [now rewrite R1 | exact C]].
  unfold routes.POST_save, routes.with_user.
  rewrite (current_user_users db db1 now authorization
                              (save_article_users _ _ _ _ _ S1)).
  now rewrite Hu, S2.
Qed.

(** The listing of one's bookmarks goes through the same response model:
    the route answers the empty list for a principal without bookmark and
    cannot answer a list that has one. *)
Lemma saved_route_needs_no_bookmark
      {J : Jose} {P : Pydantic}
      (db : Session) (now : Z) (authorization : option string) (u : User.t) :
  routes.current_user db now authorization = Return u ->
  (routes.GET_saved db now authorization = Return []
   <-> blog.read_saved_articles db u = Return [])
  /\ (blog.read_saved_articles db u <> Return [] ->
      routes.GET_saved db now authorization = Unhandled "ResponseValidationError").
Proof.
  intros Hu. unfold routes.GET_saved, routes.response_model. rewrite Hu.
  cbn [bind]. unfold blog.read_saved_articles.
  destruct (filter _ (saved_articles db)) as [|x rows]; cbn.
  - split; [tauto | congruence].
  - split; [split; discriminate | reflexivity].
Qed.

(** ** Slugs *)

Lemma replace_space (s : string) : Py.replace " " "-" s = dash_spaces s.
Proof.
  unfold Py.replace.
  induction s as [|c s IH]; [reflexivity|].
  cbn [Py.replace_from Py.startswith String.length Nat.pred dash_spaces].
  rewrite andb_true_r, (Ascii.eqb_sym " " c).
  destruct (Ascii.eqb c " "); cbn [append]; now rewrite IH.
Qed.

Lemma replace_apostrophe (s : string) : Py.replace "'" "" s = drop_apostrophes s.
Proof.
  unfold Py.replace.
  induction s as [|c s IH]; [reflexivity|].
  cbn [Py.replace_from Py.startswith String.length Nat.pred drop_apostrophes].
  rewrite andb_true_r, (Ascii.eqb_sym "'" c).
  destruct (Ascii.eqb c "'"); cbn [append]; now rewrite IH.
Qed.

Lemma slug_of_title_in_words (title : string) :
  blog.slug_of_title title = slug_in_words title.
Proof.
  unfold blog.slug_of_title, slug_in_words.
  now rewrite replace_space, replace_apostrophe.
Qed.

Lemma slug_in_words_chars (title : string) (c : ascii) :
  In c (chars (slug_in_words title)) -> c <> " "%char /\ c <> "'"%char.
Proof.
  unfold slug_in_words. generalize (Py.lower title) as s.
  induction s as [|x s IH]; cbn [dash_spaces drop_apostrophes chars]; [tauto|].
  destruct (Ascii.eqb_spec x " ") as [->|Hx].
  - cbn. intros [<-|Hin]; [split; discriminate | now apply IH].
  - destruct (Ascii.eqb_spec x "'") as [->|Hy]; [exact IH|].
    cbn [chars In]. intros [<-|Hin]; [now split | now apply IH].
Qed.

Lemma article_by_id_fresh (db : Session) :
  find (fun a => Article.id a =? next_id (map Article.id (articles db)))
       (articles db) = None.
Proof.
  apply find_none_existsb.
  destruct (existsb _ _) eqn:E; [|reflexivity].
  apply existsb_exists in E as (a & Hin & Heq).
  apply Z.eqb_eq in Heq.
  pose proof (next_id_above (map Article.id (articles db)) (Article.id a)
                            (in_map Article.id _ _ Hin)).
  lia.
Qed.

Lemma add_article_returns (db db' : Session) (row : Z -> Article.t) (a : Article.t) :
  (forall i, Article.id (row i) = i) ->
  add_article db row = (Return a, db') ->
  a = row (next_id (map Article.id (articles db)))
  /\ db' = mkSession (users db) (articles db ++ [a]) (saved_articles db)
  /\ article_by_id db' (Article.id a) = Some a.
Proof.
  intros Hid. unfold add_article.
  destruct (slug_taken db _); [discriminate|].
  intros [= <- <-]. repeat split.
  unfold article_by_id. cbn [articles]. rewrite Hid.
  rewrite (find_app_none _ _ _ (article_by_id_fresh db)).
  now rewrite Hid, Z.eqb_refl.
Qed.

(** C10.  When [create_article] stores an article for a request without
    a slug ([None] or the empty text), the stored slug is the title
    lowercased, every space replaced by a hyphen and every apostrophe
    removed; when the request gives a slug, that slug is stored as given.
    The stored row is the one returned, found again under its id. *)
Theorem create_article_slug
        (db db' : Session) (now : Z) (structured : option string)
        (article_in : blog_schemas.ArticleCreate) (current_user : User.t)
        (a : Article.t) :
  blog.create_article db now structured article_in current_user = (Return a, db') ->
  article_by_id db' (Article.id a) = Some a
  /\ (Py.truthy_str (blog_schemas.slug article_in) = false ->
      Article.slug a = Some (slug_in_words (blog_schemas.title article_in)))
  /\ (forall s, blog_schemas.slug article_in = Some s -> s <> EmptyString ->
      Article.slug a = Some s).
Proof.
  unfold blog.create_article.
  destruct (negb (Py.truthy_bool (User.is_admin current_user))); [discriminate|].
  intros R. apply add_article_returns in R as (-> & _ & F); [|reflexivity].
  split; [exact F|]. cbn [Article.slug]. rewrite slug_of_title_in_words.
  split.
  - intros T. destruct (blog_schemas.slug article_in) as [s|]; [|reflexivity].
    now rewrite T.
  - intros s -> Hs. destruct s; [contradiction | reflexivity].
Qed.

(** ** The admin gate on the mutating actions *)


(** ** Who may list articles *)

Section Listing.
Context {J : Jose} {P : Pydantic}.

Lemma offset_limit_all {A : Type} (skip limit : Z) (rows : list A) :
  skip <= 0 -> limit < 0 \/ Z.of_nat (List.length rows) <= limit ->
  blog.offset_limit skip limit rows = rows.
Proof.
  intros Hs Hl. unfold blog.offset_limit.
  replace (Z.to_nat skip) with O by lia. cbn [skipn].
  destruct (Z.ltb_spec limit 0) as [|Hge]; [reflexivity|].
  apply firstn_all2. lia.
Qed.

End Listing.

Lemma each_from_attributes_all {A : Type} (read : A -> option A) (rows : list A) :
  (forall x, In x rows -> read x = Some x) ->
  blog_schemas.each_from_attributes read rows = Some rows.
Proof.
  induction rows as [|x rows IH]; cbn [blog_schemas.each_from_attributes In];
    [reflexivity|].
  intros H. rewrite (H x (or_introl eq_refl)), IH; [reflexivity|].
  intros y Hy. apply H. now right.
Qed.

Lemma skipn_In {A : Type} (n : nat) (rows : list A) (x : A) :
  In x (skipn n rows) -> In x rows.
Proof.
  revert rows. induction n as [|n IH]; intros [|y rows]; cbn [skipn In]; auto.
Qed.

Lemma firstn_In {A : Type} (n : nat) (rows : list A) (x : A) :
  In x (firstn n rows) -> In x rows.
Proof.
  revert rows. induction n as [|n IH]; intros [|y rows]; cbn [firstn In];
    intuition auto.
Qed.

Lemma offset_limit_In {A : Type} (skip limit : Z) (rows : list A) (x : A) :
  In x (blog.offset_limit skip limit rows) -> In x rows.
Proof.
  unfold blog.offset_limit. intros H.
  apply (skipn_In (Z.to_nat skip)).
  destruct (limit <? 0); [exact H|].
  now apply (firstn_In (Z.to_nat limit)).
Qed.

(** C8, as amended.  Both listings are public: what [GET /blog] and
    [GET /blog/articles] answer does not depend on the [Authorization]
    header, absent or not.  When every article has the fields the response
    requires (title, content and creation time), [GET /blog] returns exactly
    the articles whose [is_published] is true, and [GET /blog/articles],
    for [skip] and [limit] of 64 bits (0 and 100 when not given), returns
    that page of all the articles, published or not: all of them when
    neither is given and the table has no more than 100. *)
Theorem listing_needs_no_credential
        {J : Jose} {P : Pydantic}
        (db : Session) (now : Z) (authorization : option string)
        (skip limit : option Z) :
  routes.GET_blog db now authorization = routes.GET_blog db now None
  /\ routes.GET_articles db now authorization skip limit
     = routes.GET_articles db now None skip limit
  /\ ((forall a, In a (articles db) ->
                 blog_schemas.Article_from_attributes a = Some a) ->
      routes.GET_blog db now authorization
      = Return (filter blog.published (articles db))
      /\ (forall a, In a (filter blog.published (articles db))
                    <-> In a (articles db) /\ Article.is_published a = Some true)
      /\ (sqlite_integer (match skip with Some n => n | None => 0 end) = true ->
          sqlite_integer (match limit with Some n => n | None => 100 end) = true ->
          routes.GET_articles db now authorization skip limit
          = Return (blog.offset_limit
                      (match skip with Some n => n | None => 0 end)
                      (match limit with Some n => n | None => 100 end)
                      (articles db)))
      /\ ((List.length (articles db) <= 100)%nat ->
          routes.GET_articles db now authorization None None
          = Return (articles db))).
Proof.
  split; [reflexivity|]. split; [reflexivity|].
  intros Hok. split; [|split; [|split]].
  - unfold routes.GET_blog, routes.response_model, blog.get_all_articles.
    cbn [bind]. rewrite each_from_attributes_all; [reflexivity|].
    intros a Ha. apply Hok. now apply filter_In in Ha.
  - intros a. rewrite filter_In. unfold blog.published.
    destruct (Article.is_published a) as [[|]|]; intuition congruence.
  - intros Hs Hl.
    unfold routes.GET_articles, routes.response_model, blog.read_articles.
    rewrite Hs, Hl. cbn [andb bind].
    rewrite each_from_attributes_all; [reflexivity|].
    intros a Ha. apply Hok. now apply offset_limit_In in Ha.
  - intros Hlen.
    unfold routes.GET_articles, routes.response_model, blog.read_articles.
    replace (sqlite_integer 0 && sqlite_integer 100) with true by reflexivity.
    cbn [bind]. rewrite offset_limit_all; [|lia|right; lia].
    now rewrite each_from_attributes_all.
Qed.

(** ** The endpoints run on concrete requests

    Each statement below runs the endpoints on the library models of
    [Model] and the sessions of [Scenario]. *)

Example invalid_token_is_403 :
  deps.get_current_user (J := ModelLaws.jose) (P := ModelLaws.pydantic)
                        Scenario.with_alice Scenario.t0 "invalid.token.here"
  = HTTPException 403 "Could not validate credentials".
Proof. reflexivity. Qed.

Example missing_header_is_401 :
  routes.GET_me (J := ModelLaws.jose) (P := ModelLaws.pydantic)
                Scenario.with_alice Scenario.t0 None
  = HTTPException 401 "Not authenticated".
Proof. reflexivity. Qed.

Example wrong_password_is_400 :
  auth.login_access_token (J := ModelLaws.jose) (L := ModelLaws.passlib)
                          Scenario.with_alice Scenario.t0
                          (auth.mkForm "a@x.com" "wrong")
  = HTTPException 400 "Incorrect email or password".
Proof. vm_compute. reflexivity. Qed.

(** A token issued with a time-to-live of minus one second, presented five
    microseconds later. *)
Lemma expired_token_unauthenticated_witness :
  deps.get_current_user (J := ModelLaws.jose) (P := ModelLaws.pydantic)
    Scenario.with_alice (Scenario.t0 + 5)
    (security.create_access_token (J := ModelLaws.jose)
                                  Scenario.t0 1 (Some (Py.seconds (-1))))
  = HTTPException 403 "Could not validate credentials".
Proof.
  apply (expired_token_unauthenticated (J := ModelLaws.jose) (P := ModelLaws.pydantic)
           Scenario.with_alice 1 Scenario.t0 (Scenario.t0 + 5)).
  unfold Scenario.t0. lia.
Defined.

(** A signed, unexpired token without subject. *)
Lemma get_current_user_without_subject_witness :
  deps.get_current_user (J := ModelLaws.jose) (P := ModelLaws.pydantic)
                        Scenario.with_alice Scenario.t0 Scenario.anonymous_token
  = HTTPException 404 "User not found".
Proof.
  apply (get_current_user_without_subject
           (J := ModelLaws.jose) (P := ModelLaws.pydantic)
           Scenario.with_alice Scenario.t0 Scenario.anonymous_token
           (Claims.mk (Some 1700001800) None)).
  - reflexivity.
  - reflexivity.
  - intros e [= <-]. vm_compute. discriminate.
Defined.

(** Registration in the empty session, login at once, the token presented
    29 minutes later. *)
Lemma login_after_registration_witness :
  deps.get_current_user (J := ModelLaws.jose) (P := ModelLaws.pydantic)
    Scenario.with_alice (Scenario.t0 + Py.minutes 29)
    (issue (J := ModelLaws.jose) Scenario.t0 1)
  = Return Scenario.alice.
Proof.
  apply (login_after_registration
           (J := ModelLaws.jose) (P := ModelLaws.pydantic) (L := ModelLaws.passlib)
           empty_session Scenario.with_alice "NaCl" Scenario.registration_body
           Scenario.registration
           Scenario.alice Scenario.t0 (Scenario.t0 + Py.minutes 29)).
  - reflexivity.
  - reflexivity.
  - reflexivity.
  - vm_compute. discriminate.
Defined.



(** A second registration with the email of a stored user. *)
Lemma duplicate_registration_rejected_witness :
  auth.register_user (L := ModelLaws.passlib) Scenario.with_alice "other salt"
    (schemas.mkUserCreate "a@x.com" "another password" "B" None None None)
  = (HTTPException 400
       "The user with this username already exists in the system.",
     Scenario.with_alice).
Proof.
  apply (duplicate_registration_rejected
           (L := ModelLaws.passlib) Scenario.with_alice "other salt"
           (schemas.mkUserCreate "a@x.com" "another password" "B" None None None)
           Scenario.alice).
  - now left.
  - reflexivity.
Defined.

(** An admin creates an article titled Teide's Peak without a slug. *)
Lemma create_article_slug_witness :
  Article.slug Scenario.teide_row = Some (slug_in_words "Teide's Peak").
Proof.
  refine (proj1 (proj2 (create_article_slug
           Scenario.with_draft
           (mkSession [Scenario.alice; Scenario.admin]
                      [Scenario.draft; Scenario.teide_row] [])
           Scenario.t0 None Scenario.teide Scenario.admin Scenario.teide_row
           _)) _); reflexivity.
Defined.

(** Alice saves the draft through the route. *)
Lemma save_route_answers_500_witness :
  status (fst (routes.POST_save
                 (J := ModelLaws.jose) (P := ModelLaws.pydantic)
                 Scenario.with_draft Scenario.t0
                 (Some ("Bearer " ++ issue (J := ModelLaws.jose) Scenario.t0 1)) 1))
  = 500.
Proof.
  destruct (save_route_answers_500
              (J := ModelLaws.jose) (P := ModelLaws.pydantic)
              Scenario.with_draft Scenario.t0
              (Some ("Bearer " ++ issue (J := ModelLaws.jose) Scenario.t0 1)) 1
              Scenario.alice)
    as (saved & db1 & _ & _ & _ & _ & H & _).
  - vm_compute. reflexivity.
  - discriminate.
  - vm_compute. lia.
  - exact H.
Defined.



(** Against C5 as worded: registered with the domain in capitals, the
    address is stored in lower case, and a login with the pair of the
    request is refused. *)
Lemma login_with_capital_domain :
  schemas.UserCreate_of (P := ModelLaws.pydantic) Scenario.capital_body
  = Some Scenario.registration
  /\ auth.register_user (L := ModelLaws.passlib) empty_session "NaCl"
                        Scenario.registration
     = (Return Scenario.alice, Scenario.with_alice)
  /\ auth.login_access_token (J := ModelLaws.jose) (L := ModelLaws.passlib)
                             Scenario.with_alice Scenario.t0
                             (auth.mkForm "a@X.com" "secret123")
     = HTTPException 400 "Incorrect email or password"
  /\ ~ login_with_the_registered_pair
        (J := ModelLaws.jose) (P := ModelLaws.pydantic) (L := ModelLaws.passlib).
Proof.
  split; [reflexivity|]. split; [reflexivity|]. split; [reflexivity|].
  intros C.
  specialize (C empty_session Scenario.with_alice "NaCl" Scenario.capital_body
                Scenario.registration Scenario.alice Scenario.t0
                eq_refl eq_refl).
  discriminate C.
Qed.


(** Against C8 as worded: without any header the list of all articles is
    answered, the unpublished draft included. *)
Lemma list_all_without_token :
  routes.GET_articles Scenario.with_draft Scenario.t0 None None None
  = Return [Scenario.draft]
  /\ Article.is_published Scenario.draft = Some false
  /\ ~ list_all_requires_token (J := ModelLaws.jose) (P := ModelLaws.pydantic).
Proof.
  split; [reflexivity|]. split; [reflexivity|].
  intros C.
  specialize (C Scenario.with_draft Scenario.t0 None None None).
  assert (forall u, routes.current_user (J := ModelLaws.jose) (P := ModelLaws.pydantic)
                      Scenario.with_draft Scenario.t0 None <> Return u) as No
      by (intros u; discriminate).
  specialize (C No). discriminate C.
Qed.

(** * Further properties of the endpoints *)

(** ** Tokens and the gate *)

Section TokenWindow.
Context {J : Jose} {P : Pydantic}.


Lemma get_current_user_signed (db : Session) (now e s : Z) :
  deps.get_current_user
    db now
    (jws_sign (Claims.mk (Some e) (Some (Py.str s)))
              settings.SECRET_KEY settings.ALGORITHM)
  = if e <? Py.timegm now
    then HTTPException 403 "Could not validate credentials"
    else if sqlite_integer s
    then match user_by_id db (Some s) with
         | None => HTTPException 404 "User not found"
         | Some user => Return user
         end
    else Unhandled "OverflowError".
Proof.
  unfold deps.get_current_user, jwt.decode.
  change settings.ALGORITHM with "HS256". rewrite jws_verify_sign.
  cbn [Claims.exp]. destruct (e <? Py.timegm now); [reflexivity|].
  unfold schemas.TokenPayload_of. cbn [Claims.sub].
  rewrite int_validate_str. cbn [schemas.sub binds].
  now destruct (sqlite_integer s).
Qed.


(** X2.  A time-to-live of zero is not an immediate expiry: the zero
    [timedelta] is false, so the token is the one issued with the default
    of 30 minutes, and it opens the gate for 1800 seconds (to the lookup
    of [s], which raises [OverflowError] for an [s] beyond 64 bits). *)
Theorem zero_ttl_is_the_default (db : Session) (t now s : Z) :
  security.create_access_token t s (Some 0)
  = security.create_access_token t s None
  /\ (Py.timegm now <= Py.timegm t + 1800 ->
      deps.get_current_user db now (security.create_access_token t s (Some 0))
      = if sqlite_integer s
        then match user_by_id db (Some s) with
             | None => HTTPException 404 "User not found"
             | Some user => Return user
             end
        else Unhandled "OverflowError").
Proof.
  split; [reflexivity|]. intros Hw.
  assert (security.create_access_token t s (Some 0)
          = jws_sign (Claims.mk (Some (Py.timegm t + 1800)) (Some (Py.str s)))
                     settings.SECRET_KEY settings.ALGORITHM) as E.
  { unfold security.create_access_token, jwt.encode.
    cbn [Py.truthy_timedelta jwt.exp_at jwt.subject option_map Z.eqb negb].
    now rewrite timegm_minutes. }
  rewrite E, get_current_user_signed.
  destruct (Z.ltb_spec (Py.timegm t + 1800) (Py.timegm now)); [lia | reflexivity].
Qed.

Lemma reusable_oauth2_bearer (token : string) :
  deps.reusable_oauth2 (Some ("Bearer " ++ token)) = Return token.
Proof. reflexivity. Qed.

(** X4.  [GET /auth/me] distinguishes a missing credential from a bad
    one: without an [Authorization] header, or with a scheme other than
    bearer, the answer is 401 "Not authenticated" and the token check is
    not reached; with a bearer token that is refused the answer is 403. *)
Theorem me_401_or_403 (db : Session) (now : Z) :
  routes.GET_me db now None = HTTPException 401 "Not authenticated"
  /\ (forall header,
         String.eqb (Py.lower (fst (Py.partition_space header))) "bearer" = false ->
         routes.GET_me db now (Some header) = HTTPException 401 "Not authenticated")
  /\ (forall token,
         rejected now token ->
         routes.GET_me db now (Some ("Bearer " ++ token))
         = HTTPException 403 "Could not validate credentials").
Proof.
  split; [reflexivity|]. split.
  - intros header Hs. unfold routes.GET_me, routes.current_user, deps.reusable_oauth2.
    destruct (Py.partition_space header) as [scheme param]. cbn [fst] in Hs.
    now rewrite Hs.
  - intros token R. unfold routes.GET_me, routes.current_user.
    rewrite reusable_oauth2_bearer. cbn [bind].
    now rewrite (get_current_user_rejected db now token R).
Qed.

End TokenWindow.

Section LoginThenMe.
Context {J : Jose} {P : Pydantic} {L : Passlib}.


End LoginThenMe.

(** ** Registration *)

Lemma emails_app (l l' : list User.t) :
  emails (l ++ l') = (emails l ++ emails l')%list.
Proof.
  induction l as [|u l IH]; simpl; [reflexivity|].
  destruct (User.email u); simpl; now rewrite IH.
Qed.

Lemma email_not_stored (l : list User.t) (e : string) :
  existsb (fun u => col_eqs (User.email u) e) l = false -> ~ In e (emails l).
Proof.
  induction l as [|u l IH]; cbn [existsb emails]; [tauto|].
  intros Hx. apply orb_false_elim in Hx as [Hu Hl].
  unfold col_eqs in Hu. destruct (User.email u) as [e'|]; [|now apply IH].
  apply String.eqb_neq in Hu. intros [->|Hin]; [congruence | now apply IH].
Qed.

Lemma NoDup_snoc {A : Type} (l : list A) (x : A) :
  NoDup l -> ~ In x l -> NoDup (l ++ [x])%list.
Proof.
  intros ND Hx. apply NoDup_app; [exact ND | repeat constructor; tauto |].
  intros y Hy [<-|[]]. contradiction.
Qed.

Section Registration.
Context {L : Passlib}.

(** X5.  Registration never reaches the unique constraint of the
    store: whatever the session and the request, it returns a user or
    answers 400 and leaves the session as it was; [IntegrityError] is never
    raised. *)
Theorem register_never_raises
        (db : Session) (salt : string) (user_in : schemas.UserCreate) :
  (forall exc, fst (auth.register_user db salt user_in) <> Unhandled exc)
  /\ (succeeds (fst (auth.register_user db salt user_in)) = false ->
      auth.register_user db salt user_in
      = (HTTPException 400
           "The user with this username already exists in the system.", db)).
Proof.
  destruct (register_user_total db salt user_in) as [(u & db' & R)|R];
    rewrite R; cbn [fst succeeds]; split;
      discriminate || reflexivity || (intros; discriminate).
Qed.

(** X6.  Registration keeps the keys of the user table: if the ids are
    pairwise distinct and the emails are pairwise distinct before, they are
    after, whatever the outcome. *)
Theorem register_keeps_keys
        (db db' : Session) (salt : string) (user_in : schemas.UserCreate)
        (r : result User.t) :
  NoDup (map User.id (users db)) ->
  NoDup (emails (users db)) ->
  auth.register_user db salt user_in = (r, db') ->
  NoDup (map User.id (users db')) /\ NoDup (emails (users db')).
Proof.
  intros Nid Nem R.
  destruct (register_user_total db salt user_in) as [(u & db1 & R1)|R1];
    rewrite R1 in R; injection R as <- <-; [|now split].
  apply register_user_returns in R1 as (E & Hu & ->). cbn [users].
  rewrite map_app, emails_app. cbn [map emails].
  replace (User.email u) with (Some (schemas.email user_in)) by (now subst u).
  replace (User.id u) with (next_id (map User.id (users db))) by (now subst u).
  split; apply NoDup_snoc; trivial.
  - intros Hin. apply next_id_above in Hin. lia.
  - apply email_not_stored. unfold user_by_email in E.
    now apply find_none_existsb.
Qed.

(** X7.  A registration does not disturb the accounts already stored:
    a login with any other email is answered as before, and every user
    found under an id before is found under it afterwards. *)
Theorem register_keeps_other_accounts
        {J : Jose}
        (db db' : Session) (salt : string) (user_in : schemas.UserCreate)
        (r : result User.t) :
  auth.register_user db salt user_in = (r, db') ->
  (forall now form,
      auth.username form <> schemas.email user_in ->
      auth.login_access_token db' now form = auth.login_access_token db now form)
  /\ (forall i v, user_by_id db (Some i) = Some v -> user_by_id db' (Some i) = Some v).
Proof.
  intros R.
  destruct (register_user_total db salt user_in) as [(u & db1 & R1)|R1];
    rewrite R1 in R; injection R as <- <-; [|now split].
  apply register_user_returns in R1 as (E & Hu & ->). split.
  - intros now form Hne. unfold auth.login_access_token, user_by_email.
    cbn [users].
    destruct (find (fun v => col_eqs (User.email v) (auth.username form)) (users db))
      as [v|] eqn:F.
    + now rewrite (find_app_some _ _ [u] v F).
    + rewrite (find_app_none _ _ u F).
      replace (User.email u) with (Some (schemas.email user_in)) by (now subst u).
      cbn [col_eqs].
      destruct (String.eqb_spec (schemas.email user_in) (auth.username form));
        [congruence | reflexivity].
  - intros i v F. cbn [user_by_id users] in *. now apply find_app_some.
Qed.

End Registration.

(** X8.  Registration gives no privilege: whatever [is_admin] and
    [is_active] the request carries, the user returned is active and not an
    admin, and every mutating action that user attempts afterwards is
    refused with 403 and changes neither session nor image directory. *)
Theorem registered_user_cannot_mutate
        {L : Passlib} {F : FileSystem}
        (db db' : Session) (salt : string) (user_in : schemas.UserCreate)
        (u : User.t) (act : action) (now : Z) (st : Session * Disk) :
  auth.register_user db salt user_in = (Return u, db') ->
  User.is_admin u = Some false
  /\ User.is_active u = Some true
  /\ perform act u now st = (HTTPException 403 (forbidden_detail act), st).
Proof.
  intros R. apply register_user_returns in R as (_ & Hu & _).
  assert (User.is_admin u = Some false) as A by (now subst u).
  repeat split; trivial; [now subst u|].
  destruct st as [s disk].
  destruct act; cbn [perform forbidden_detail];
    unfold blog.create_article, blog.create_article_simple,
           blog.update_article, blog.delete_article, blog.upload_image;
    rewrite A; reflexivity.
Qed.

(** ** Bookmarks of one user and of the others *)

Lemma filter_filter_comm {A : Type} (p q : A -> bool) (l : list A) :
  filter p (filter q l) = filter q (filter p l).
Proof.
  induction l as [|x l IH]; cbn [filter]; [reflexivity|].
  destruct (q x) eqn:Q, (p x) eqn:Pp; cbn [filter]; rewrite ?Q, ?Pp, IH; reflexivity.
Qed.

Lemma filter_all {A : Type} (p : A -> bool) (l : list A) :
  (forall x, In x l -> p x = true) -> filter p l = l.
Proof.
  induction l as [|x l IH]; cbn [filter]; [reflexivity|].
  intros Hall. rewrite (Hall x (or_introl eq_refl)).
  f_equal. apply IH. intros y Hy. apply Hall. now right.
Qed.

Lemma session_eta (db : Session) :
  mkSession (users db) (articles db) (saved_articles db) = db.
Proof. now destruct db. Qed.

(** X9.  Saving and then unsaving restores the session: for a user
    without bookmark of an existing article, [save_article] followed by
    [unsave_article] returns twice and ends in the very session it started
    from. *)
Theorem save_then_unsave_restores
        (db : Session) (article_id : Z) (current_user : User.t) :
  article_by_id db article_id <> None ->
  saved_by db (User.id current_user) article_id = None ->
  exists saved db1,
    blog.save_article db article_id current_user = (Return saved, db1)
    /\ blog.unsave_article db1 article_id current_user
       = (Return "Article removed from saved", db).
Proof.
  intros A S.
  destruct (save_article_new db article_id current_user S A) as (R & S1 & _).
  eexists. eexists. split; [exact R|].
  unfold blog.unsave_article. rewrite S1.
  cbn [users articles saved_articles SavedArticle.id].
  rewrite filter_app. cbn [filter SavedArticle.id].
  rewrite Z.eqb_refl. cbn [negb]. rewrite app_nil_r.
  rewrite filter_all; [now rewrite session_eta|].
  intros x Hx.
  pose proof (next_id_above (map SavedArticle.id (saved_articles db))
                            (SavedArticle.id x) (in_map SavedArticle.id _ _ Hx)).
  destruct (Z.eqb_spec (SavedArticle.id x)
                       (next_id (map SavedArticle.id (saved_articles db))));
    [lia | reflexivity].
Qed.

(** X10.  Unsaving removes the bookmark for good: in a session with at
    most one bookmark of the pair, after [unsave_article] returned no
    bookmark of the pair is left, and a second call answers 404 "Saved
    article not found" without touching the session. *)
Theorem unsave_then_unsave_is_404
        (db db1 : Session) (article_id : Z) (current_user : User.t) (m : string) :
  (bookmarks db (User.id current_user) article_id <= 1)%nat ->
  blog.unsave_article db article_id current_user = (Return m, db1) ->
  bookmarks db1 (User.id current_user) article_id = 0%nat
  /\ blog.unsave_article db1 article_id current_user
     = (HTTPException 404 "Saved article not found", db1).
Proof.
  intros Hle R. unfold blog.unsave_article in R.
  destruct (saved_by db (User.id current_user) article_id) as [saved|] eqn:S;
    [|discriminate].
  injection R as _ <-.
  unfold saved_by in S.
  destruct (find_some_filter _ _ _ S) as (rest & Hf).
  assert (rest = []) as ->.
  { unfold bookmarks in Hle. rewrite Hf in Hle. cbn [List.length] in Hle.
    destruct rest; [reflexivity | cbn [List.length] in Hle; lia]. }
  assert (filter (is_saved (User.id current_user) article_id)
                 (filter (fun s => negb (SavedArticle.id s =? SavedArticle.id saved))
                         (saved_articles db)) = []) as E.
  { rewrite filter_filter_comm, Hf. cbn [filter].
    now rewrite Z.eqb_refl. }
  split.
  - unfold bookmarks. cbn [saved_articles]. now rewrite E.
  - unfold blog.unsave_article, saved_by. cbn [saved_articles].
    match goal with
    | |- context [find ?p ?l] => destruct (find p l) as [s|] eqn:F2
    end; [|reflexivity].
    destruct (find_some_filter _ _ _ F2) as (rest & Hf2). congruence.
Qed.

(** X11.  Bookmarks are scoped to their user: [read_saved_articles]
    lists only rows of the current user, a record just saved is listed, and
    neither saving nor, when the bookmark ids are distinct, unsaving by one
    user changes what another user is listed. *)
Theorem bookmarks_are_per_user
        (db db1 : Session) (article_id : Z) (u v : User.t) :
  User.id v <> User.id u ->
  (forall rows s, blog.read_saved_articles db u = Return rows -> In s rows ->
                  SavedArticle.user_id s = Some (User.id u))
  /\ (forall saved, blog.save_article db article_id u = (Return saved, db1) ->
                    exists rows, blog.read_saved_articles db1 u = Return rows
                                 /\ In saved rows)
  /\ (forall r, blog.save_article db article_id u = (r, db1) ->
                blog.read_saved_articles db1 v = blog.read_saved_articles db v)
  /\ (forall r, NoDup (map SavedArticle.id (saved_articles db)) ->
                blog.unsave_article db article_id u = (r, db1) ->
                blog.read_saved_articles db1 v = blog.read_saved_articles db v).
Proof.
  intros Hne. split; [|split; [|split]].
  - intros rows s [= <-] Hin. apply filter_In in Hin as [_ Hs].
    unfold col_eqZ in Hs. destruct (SavedArticle.user_id s); [|discriminate].
    apply Z.eqb_eq in Hs. now subst.
  - intros saved R. eexists. split; [reflexivity|].
    apply filter_In. unfold blog.save_article in R.
    destruct (article_by_id db article_id); [|discriminate].
    destruct (saved_by db (User.id u) article_id) as [s|] eqn:S.
    + injection R as <- <-. unfold saved_by in S.
      apply find_some in S as [Hin Hs]. split; [exact Hin|].
      unfold is_saved in Hs. now apply andb_prop in Hs as [Hs _].
    + unfold add_saved_article in R. injection R as <- <-. cbn [saved_articles].
      split; [apply in_or_app; right; now left|].
      cbn. apply Z.eqb_refl.
  - intros r R. unfold blog.save_article in R.
    destruct (article_by_id db article_id); [|now injection R as _ <-].
    destruct (saved_by db (User.id u) article_id); [now injection R as _ <-|].
    unfold add_saved_article in R. injection R as _ <-.
    unfold blog.read_saved_articles. cbn [saved_articles].
    rewrite filter_app. cbn [filter SavedArticle.user_id col_eqZ].
    destruct (Z.eqb_spec (User.id u) (User.id v)); [congruence|].
    now rewrite app_nil_r.
  - intros r ND R. unfold blog.unsave_article in R.
    destruct (saved_by db (User.id u) article_id) as [saved|] eqn:S;
      [|now injection R as _ <-].
    injection R as _ <-.
    unfold blog.read_saved_articles. cbn [saved_articles]. f_equal.
    rewrite filter_filter_comm. apply filter_all.
    intros x Hx. apply filter_In in Hx as [Hin Hv].
    unfold saved_by in S. apply find_some in S as [Hsin Hs].
    destruct (Z.eqb_spec (SavedArticle.id x) (SavedArticle.id saved)) as [E|_];
      [|reflexivity].
    exfalso.
    assert (x = saved) as ->.
    { clear - ND Hin Hsin E. induction (saved_articles db) as [|y l IH];
        [contradiction|].
      cbn [map] in ND. inversion ND as [|? ? Hnot ND']; subst.
      destruct Hin as [->|Hin], Hsin as [->|Hsin]; trivial.
      - exfalso. apply Hnot. rewrite E. now apply in_map.
      - exfalso. apply Hnot. rewrite <- E. now apply in_map.
      - now apply IH. }
    unfold is_saved in Hs. apply andb_prop in Hs as [Hs _].
    unfold col_eqZ in Hs, Hv.
    destruct (SavedArticle.user_id saved); [|discriminate].
    apply Z.eqb_eq in Hs, Hv. congruence.
Qed.

(** ** Creating articles *)

Lemma article_by_slug_free (db : Session) (s : string) :
  slug_taken db (Some s) = false -> article_by_slug db s = None.
Proof. intros T. now apply find_none_existsb. Qed.

Lemma create_article_row
      (db db' : Session) (now : Z) (structured : option string)
      (article_in : blog_schemas.ArticleCreate) (user : User.t) (a : Article.t) :
  blog.create_article db now structured article_in user = (Return a, db') ->
  slug_taken db (Some (slug_stored article_in)) = false
  /\ Article.slug a = Some (slug_stored article_in)
  /\ Article.is_published a = Some false
  /\ Article.author_id a = None
  /\ Article.id a = next_id (map Article.id (articles db))
  /\ db' = mkSession (users db) (articles db ++ [a]) (saved_articles db).
Proof.
  unfold blog.create_article.
  destruct (negb (Py.truthy_bool (User.is_admin user))); [discriminate|].
  unfold add_article. cbn [Article.slug]. fold (slug_stored article_in).
  destruct (slug_taken db (Some (slug_stored article_in))); [discriminate|].
  intros [= <- <-]. repeat split.
Qed.

Lemma create_article_failure
      (db db' : Session) (now : Z) (structured : option string)
      (article_in : blog_schemas.ArticleCreate) (user : User.t)
      (r : result Article.t) :
  blog.create_article db now structured article_in user = (r, db') ->
  succeeds r = false -> db' = db.
Proof.
  unfold blog.create_article, add_article.
  destruct (negb _); [now intros [= <- <-]|].
  destruct (slug_taken _ _); intros [= <- <-]; [reflexivity | discriminate].
Qed.

(** X12.  [create_article] never publishes: whatever [is_published] the
    request carries and whatever the outcome, the public listing
    [get_all_articles] answers afterwards what it answered before, while the
    article created is found under its id. *)
Theorem created_article_is_not_public
        (db db' : Session) (now : Z) (structured : option string)
        (article_in : blog_schemas.ArticleCreate) (user : User.t)
        (r : result Article.t) :
  blog.create_article db now structured article_in user = (r, db') ->
  blog.get_all_articles db' = blog.get_all_articles db
  /\ (forall a, r = Return a -> blog.read_article db' (Article.id a) = Return a).
Proof.
  intros R. destruct r as [a| |].
  - pose proof R as R'.
    apply create_article_row in R as (_ & _ & Pub & _ & Hid & ->). split.
    + unfold blog.get_all_articles. cbn [articles]. rewrite filter_app.
      cbn [filter]. unfold blog.published at 2. rewrite Pub.
      now rewrite app_nil_r.
    + intros a' [= <-]. unfold blog.read_article, article_by_id. cbn [articles].
      rewrite Hid, (find_app_none _ _ _ (article_by_id_fresh db)).
      now rewrite <- Hid, Z.eqb_refl.
  - rewrite (create_article_failure _ _ _ _ _ _ _ R eq_refl).
    split; [reflexivity | discriminate].
  - rewrite (create_article_failure _ _ _ _ _ _ _ R eq_refl).
    split; [reflexivity | discriminate].
Qed.

(** X13.  [create_article_simple] stores what [create_article] does not:
    the author is the current user, and the article is published exactly
    when the request says so, a request that says false or nothing (null)
    being stored as false, the default of the column.  A published article
    is in the public listing at once; otherwise the listing answers what it
    answered before. *)
Theorem simple_article_has_author_and_status
        (db db' : Session) (now : Z)
        (article_in : blog_schemas.ArticleCreate) (user : User.t) (a : Article.t) :
  blog.create_article_simple db now article_in user = (Return a, db') ->
  Article.author_id a = Some (User.id user)
  /\ Article.is_published a
     = Some (Py.truthy_bool (blog_schemas.is_published article_in))
  /\ Article.slug a = blog_schemas.slug article_in
  /\ (blog_schemas.is_published article_in = Some true ->
      exists rows, blog.get_all_articles db' = Return rows /\ In a rows)
  /\ (blog_schemas.is_published article_in <> Some true ->
      blog.get_all_articles db' = blog.get_all_articles db).
Proof.
  unfold blog.create_article_simple.
  destruct (negb (Py.truthy_bool (User.is_admin user))); [discriminate|].
  unfold add_article. cbn [Article.slug].
  destruct (slug_taken db (blog_schemas.slug article_in)); [discriminate|].
  intros [= <- <-]. cbn [Article.author_id Article.is_published Article.slug].
  split; [reflexivity|]. split; [|split; [reflexivity|split]].
  - now destruct (blog_schemas.is_published article_in) as [[|]|].
  - intros Pub. eexists. split; [reflexivity|].
    cbn [articles]. apply filter_In. split.
    + apply in_or_app. right. now left.
    + unfold blog.published. cbn [Article.is_published]. now rewrite Pub.
  - intros Pub. unfold blog.get_all_articles. cbn [articles].
    rewrite filter_app. cbn [filter]. unfold blog.published at 2.
    cbn [Article.is_published].
    destruct (blog_schemas.is_published article_in) as [[|]|];
      [contradiction| |]; cbn [column_default]; now rewrite app_nil_r.
Qed.

(** X14.  An article created is found again under its slug: after
    [create_article] returned [a], both slug endpoints, asked for the slug
    of [a], return [a], because the unique constraint let the insertion
    through only if no other row had the slug. *)
Theorem create_then_read_by_slug
        (db db' : Session) (now : Z) (structured : option string)
        (article_in : blog_schemas.ArticleCreate) (user : User.t) (a : Article.t) :
  blog.create_article db now structured article_in user = (Return a, db') ->
  Article.slug a = Some (slug_stored article_in)
  /\ blog.read_article_by_slug db' (slug_stored article_in) = Return a
  /\ blog.get_article_by_slug_simple db' (slug_stored article_in) = Return a.
Proof.
  intros R. apply create_article_row in R as (T & Sl & _ & _ & _ & ->).
  split; [exact Sl|].
  assert (article_by_slug
            (mkSession (users db) (articles db ++ [a]) (saved_articles db))
            (slug_stored article_in) = Some a) as E.
  { unfold article_by_slug. cbn [articles].
    rewrite (find_app_none _ _ _ (article_by_slug_free db _ T)), Sl.
    cbn [col_eqs]. now rewrite String.eqb_refl. }
  unfold blog.read_article_by_slug, blog.get_article_by_slug_simple.
  now rewrite E.
Qed.

(** X15.  The same request cannot create two articles: once
    [create_article] has returned for a request, any admin sending that
    request again, whether its slug was given or made from the title, hits
    the unique constraint on the slug; the commit raises [IntegrityError],
    which no handler catches, and the session stays as it is. *)
Theorem create_twice_raises
        (db db' : Session) (now now' : Z) (structured structured' : option string)
        (article_in : blog_schemas.ArticleCreate) (user admin : User.t)
        (a : Article.t) :
  blog.create_article db now structured article_in user = (Return a, db') ->
  Py.truthy_bool (User.is_admin admin) = true ->
  blog.create_article db' now' structured' article_in admin
  = (Unhandled "IntegrityError", db').
Proof.
  intros R A. apply create_article_row in R as (_ & Sl & _ & _ & _ & ->).
  unfold blog.create_article, add_article. rewrite A. cbn [negb Article.slug].
  fold (slug_stored article_in).
  assert (slug_taken (mkSession (users db) (articles db ++ [a]) (saved_articles db))
                     (Some (slug_stored article_in)) = true) as T.
  { cbn [slug_taken articles]. apply existsb_exists. exists a. split.
    - apply in_or_app. right. now left.
    - rewrite Sl. cbn [col_eqs]. apply String.eqb_refl. }
  now rewrite T.
Qed.

(** ** Updating and deleting articles *)

Lemma updated_row_id (article_id : Z) (article_in : blog_schemas.ArticleUpdate)
      (a : Article.t) :
  Article.id (updated_row article_id article_in a) = Article.id a.
Proof. unfold updated_row. now destruct (Article.id a =? article_id). Qed.

Lemma updated_row_slug (article_id : Z) (article_in : blog_schemas.ArticleUpdate)
      (a : Article.t) :
  Article.slug (updated_row article_id article_in a) = Article.slug a.
Proof. unfold updated_row. now destruct (Article.id a =? article_id). Qed.

Lemma find_id_map (f : Article.t -> Article.t) (j : Z) (l : list Article.t) :
  (forall a, Article.id (f a) = Article.id a) ->
  find (fun a => Article.id a =? j) (map f l)
  = option_map f (find (fun a => Article.id a =? j) l).
Proof.
  intros Hf. induction l as [|a l IH]; cbn [map find]; [reflexivity|].
  rewrite Hf. destruct (Article.id a =? j); [reflexivity | exact IH].
Qed.

Lemma update_article_returns
      (db db' : Session) (article_id : Z)
      (article_in : blog_schemas.ArticleUpdate) (user : User.t) (a' : Article.t) :
  blog.update_article db article_id article_in user = (Return a', db') ->
  exists a,
    article_by_id db article_id = Some a
    /\ a' = blog.apply_update article_in a
    /\ db' = mkSession (users db)
                       (map (updated_row article_id article_in) (articles db))
                       (saved_articles db).
Proof.
  unfold blog.update_article.
  destruct (negb _); [discriminate|].
  destruct (article_by_id db article_id) as [a|] eqn:F; [|discriminate].
  intros [= <- <-]. exists a. repeat split.
Qed.

(** X16.  An update touches one article and only the fields of the
    request: the article keeps its id, slug, author, creation time, images
    and structured content; it is found under its id in its new state; every
    other id answers as before; and the ids and slugs of the table, in row
    order, are unchanged. *)
Theorem update_keeps_identity
        (db db' : Session) (article_id : Z)
        (article_in : blog_schemas.ArticleUpdate) (user : User.t) (a' : Article.t) :
  blog.update_article db article_id article_in user = (Return a', db') ->
  (exists a,
      blog.read_article db article_id = Return a
      /\ Article.id a' = Article.id a
      /\ Article.slug a' = Article.slug a
      /\ Article.author_id a' = Article.author_id a
      /\ Article.created_at a' = Article.created_at a
      /\ Article.images a' = Article.images a
      /\ Article.structured_content a' = Article.structured_content a)
  /\ blog.read_article db' article_id = Return a'
  /\ (forall j, j <> article_id -> blog.read_article db' j = blog.read_article db j)
  /\ map Article.id (articles db') = map Article.id (articles db)
  /\ map Article.slug (articles db') = map Article.slug (articles db).
Proof.
  intros R. apply update_article_returns in R as (a & F & -> & ->).
  split; [|split; [|split; [|split]]].
  - exists a. unfold blog.read_article. rewrite F. repeat split.
  - unfold blog.read_article, article_by_id in *. cbn [articles].
    rewrite (find_id_map _ _ _ (updated_row_id article_id article_in)), F.
    cbn [option_map]. unfold updated_row.
    apply find_some in F as [_ E]. now rewrite E.
  - intros j Hj. unfold blog.read_article, article_by_id. cbn [articles].
    rewrite (find_id_map _ _ _ (updated_row_id article_id article_in)).
    destruct (find (fun a0 => Article.id a0 =? j) (articles db)) as [b|] eqn:Fj;
      [|reflexivity].
    cbn [option_map]. unfold updated_row.
    apply find_some in Fj as [_ E]. apply Z.eqb_eq in E.
    destruct (Z.eqb_spec (Article.id b) article_id); [congruence | reflexivity].
  - cbn [articles]. rewrite map_map. apply map_ext. intros b.
    apply updated_row_id.
  - cbn [articles]. rewrite map_map. apply map_ext. intros b.
    apply updated_row_slug.
Qed.

(** X17.  An update that sets no field changes nothing: for an admin and
    an existing article it returns the article as stored and the session it
    was given. *)
Theorem empty_update_changes_nothing
        (db : Session) (article_id : Z) (admin : User.t) (a : Article.t) :
  Py.truthy_bool (User.is_admin admin) = true ->
  article_by_id db article_id = Some a ->
  blog.update_article
    db article_id (blog_schemas.mkArticleUpdate None None None None None None) admin
  = (Return a, db).
Proof.
  intros A F. unfold blog.update_article. rewrite A, F. cbn [negb].
  assert (forall b, blog.apply_update
                      (blog_schemas.mkArticleUpdate None None None None None None) b
                    = b) as Id by (now intros []).
  rewrite Id. f_equal.
  destruct db as [us ars svs]. cbn [users articles saved_articles]. f_equal.
  transitivity (map (fun b : Article.t => b) ars); [|apply map_id].
  apply map_ext. intros b. rewrite Id. now destruct (Article.id b =? article_id).
Qed.

(** X18.  Publication is what the public listing follows: after an
    admin's update that sets [is_published] to true the article returned is
    in [get_all_articles], and after one that sets it to false or to null no
    article with that id is. *)
Theorem update_publishes_and_unpublishes
        (db db' : Session) (article_id : Z)
        (article_in : blog_schemas.ArticleUpdate) (user : User.t) (a' : Article.t) :
  blog.update_article db article_id article_in user = (Return a', db') ->
  (blog_schemas.u_is_published article_in = Some (Some true) ->
   exists rows, blog.get_all_articles db' = Return rows /\ In a' rows)
  /\ (blog_schemas.u_is_published article_in = Some (Some false)
      \/ blog_schemas.u_is_published article_in = Some None ->
      exists rows, blog.get_all_articles db' = Return rows
                   /\ forall b, In b rows -> Article.id b <> article_id).
Proof.
  intros R. apply update_article_returns in R as (a & F & -> & ->).
  unfold article_by_id in F. pose proof (find_some _ _ F) as [Hin E].
  split; intros Pub; (eexists; split; [reflexivity|]); cbn [articles].
  - apply filter_In. split.
    + apply in_map_iff. exists a. split; [|exact Hin].
      unfold updated_row. now rewrite E.
    + unfold blog.published, blog.apply_update. cbn [Article.is_published].
      now rewrite Pub.
  - intros b Hb Hid. apply filter_In in Hb as [Hb Hp].
    apply in_map_iff in Hb as (c & <- & _).
    rewrite updated_row_id in Hid. unfold updated_row in Hp.
    apply Z.eqb_eq in Hid. rewrite Hid in Hp.
    unfold blog.published, blog.apply_update in Hp.
    cbn [Article.is_published] in Hp.
    destruct Pub as [Pub|Pub]; rewrite Pub in Hp; discriminate.
Qed.

Lemma find_filter_other (j k : Z) (l : list Article.t) :
  j <> k ->
  find (fun a => Article.id a =? j)
       (filter (fun a => negb (Article.id a =? k)) l)
  = find (fun a => Article.id a =? j) l.
Proof.
  intros Hj. induction l as [|b l IH]; cbn [filter find]; [reflexivity|].
  destruct (Z.eqb_spec (Article.id b) k) as [E|NE]; cbn [negb find].
  - destruct (Z.eqb_spec (Article.id b) j); [congruence | exact IH].
  - destruct (Article.id b =? j); [reflexivity | exact IH].
Qed.

(** X19.  Deleting removes the article and nothing else: afterwards its
    id answers 404 and a second deletion answers 404 without changing the
    session, every other id answers as before, and the bookmarks and users
    are untouched, so bookmarks of the deleted article stay in the lists of
    their users. *)
Theorem delete_removes_only_the_article
        (db db' : Session) (article_id : Z) (user : User.t) (m : string) :
  blog.delete_article db article_id user = (Return m, db') ->
  blog.read_article db' article_id = HTTPException 404 "Article not found"
  /\ blog.delete_article db' article_id user
     = (HTTPException 404 "Article not found", db')
  /\ (forall j, j <> article_id -> blog.read_article db' j = blog.read_article db j)
  /\ saved_articles db' = saved_articles db
  /\ users db' = users db
  /\ (forall u, blog.read_saved_articles db' u = blog.read_saved_articles db u).
Proof.
  unfold blog.delete_article.
  destruct (negb (Py.truthy_bool (User.is_admin user))) eqn:A; [discriminate|].
  destruct (article_by_id db article_id) as [a|] eqn:F; [|discriminate].
  intros [= _ <-].
  assert (find (fun b => Article.id b =? article_id)
               (filter (fun b => negb (Article.id b =? article_id)) (articles db))
          = None) as Gone.
  { apply find_none_existsb. destruct (existsb _ _) eqn:X; [|reflexivity].
    apply existsb_exists in X as (b & Hb & E).
    apply filter_In in Hb as [_ Hn]. rewrite E in Hn. discriminate. }
  repeat split.
  - unfold blog.read_article, article_by_id. cbn [articles]. now rewrite Gone.
  - unfold article_by_id. cbn [articles users saved_articles]. now rewrite Gone.
  - intros j Hj. unfold blog.read_article, article_by_id. cbn [articles].
    now rewrite (find_filter_other j article_id (articles db) Hj).
Qed.

(** ** The keys of the article table *)

Lemma slugs_app (l l' : list Article.t) : slugs (l ++ l') = (slugs l ++ slugs l')%list.
Proof.
  induction l as [|a l IH]; simpl; [reflexivity|].
  destruct (Article.slug a); simpl; now rewrite IH.
Qed.

Lemma slug_not_stored (l : list Article.t) (s : string) :
  existsb (fun a => col_eqs (Article.slug a) s) l = false -> ~ In s (slugs l).
Proof.
  induction l as [|a l IH]; cbn [existsb slugs]; [tauto|].
  intros Hx. apply orb_false_elim in Hx as [Ha Hl].
  unfold col_eqs in Ha. destruct (Article.slug a) as [s'|]; [|now apply IH].
  apply String.eqb_neq in Ha. intros [->|Hin]; [congruence | now apply IH].
Qed.

Lemma slugs_map (f : Article.t -> Article.t) (l : list Article.t) :
  (forall a, Article.slug (f a) = Article.slug a) -> slugs (map f l) = slugs l.
Proof.
  intros Hf. induction l as [|a l IH]; cbn [map slugs]; [reflexivity|].
  now rewrite Hf, IH.
Qed.

Lemma slugs_filter_incl (p : Article.t -> bool) (l : list Article.t) (s : string) :
  In s (slugs (filter p l)) -> In s (slugs l).
Proof.
  induction l as [|a l IH]; cbn [filter slugs]; [tauto|].
  destruct (p a); cbn [slugs]; destruct (Article.slug a); cbn [In]; tauto.
Qed.

Lemma NoDup_slugs_filter (p : Article.t -> bool) (l : list Article.t) :
  NoDup (slugs l) -> NoDup (slugs (filter p l)).
Proof.
  induction l as [|a l IH]; cbn [filter slugs]; [trivial|].
  destruct (Article.slug a) as [s|] eqn:Sl.
  - intros ND. inversion ND as [|? ? Hnot ND']; subst.
    destruct (p a); [|now apply IH].
    cbn [slugs]. rewrite Sl. constructor; [|now apply IH].
    intros Hin. apply Hnot. now apply slugs_filter_incl in Hin.
  - intros ND. destruct (p a); [|now apply IH].
    cbn [slugs]. rewrite Sl. now apply IH.
Qed.

Lemma NoDup_ids_filter (p : Article.t -> bool) (l : list Article.t) :
  NoDup (map Article.id l) -> NoDup (map Article.id (filter p l)).
Proof.
  induction l as [|a l IH]; cbn [filter map]; [trivial|].
  intros ND. inversion ND as [|? ? Hnot ND']; subst.
  destruct (p a); [|now apply IH].
  cbn [map]. constructor; [|now apply IH].
  intros Hin. apply Hnot. apply in_map_iff in Hin as (b & E & Hb).
  apply filter_In in Hb as [Hb _]. apply in_map_iff. now exists b.
Qed.

Lemma add_article_keys (db db' : Session) (row : Z -> Article.t)
      (r : result Article.t) :
  (forall i, Article.id (row i) = i) ->
  article_keys db -> add_article db row = (r, db') -> article_keys db'.
Proof.
  intros Hid [Nid Nsl]. unfold add_article.
  set (a := row (next_id (map Article.id (articles db)))).
  destruct (slug_taken db (Article.slug a)) eqn:T; intros [= _ <-]; [now split|].
  unfold article_keys. cbn [articles]. rewrite map_app, slugs_app. cbn [map slugs].
  split.
  - apply NoDup_snoc; [exact Nid|]. subst a. rewrite Hid.
    intros Hin. apply next_id_above in Hin. lia.
  - destruct (Article.slug a) as [s|]; [|now rewrite app_nil_r].
    apply NoDup_snoc; [exact Nsl|]. now apply slug_not_stored.
Qed.

(** X20.  The mutating actions keep the keys of the article table: if
    ids are pairwise distinct and slugs are pairwise distinct before an
    action, they are after it, whoever attempts the action and whatever it
    answers. *)
Theorem mutations_keep_article_keys
        {F : FileSystem} (act : action) (user : User.t) (now : Z)
        (db db' : Session) (disk disk' : Disk) (r : result answer) :
  article_keys db ->
  perform act user now (db, disk) = (r, (db', disk')) ->
  article_keys db'.
Proof.
  intros K. destruct act; cbn [perform].
  - destruct (blog.create_article db now structured article_in user)
      as [r0 db0] eqn:R. intros [= _ <- _].
    unfold blog.create_article in R.
    destruct (negb _); [now injection R as _ <-|].
    eapply add_article_keys; [|exact K|exact R]. reflexivity.
  - destruct (blog.create_article_simple db now article_in user)
      as [r0 db0] eqn:R. intros [= _ <- _].
    unfold blog.create_article_simple in R.
    destruct (negb _); [now injection R as _ <-|].
    eapply add_article_keys; [|exact K|exact R]. reflexivity.
  - destruct (blog.update_article db article_id article_in user)
      as [r0 db0] eqn:R. intros [= _ <- _].
    unfold blog.update_article in R.
    destruct (negb _); [now injection R as _ <-|].
    destruct (article_by_id db article_id); [|now injection R as _ <-].
    injection R as _ <-. destruct K as [Nid Nsl].
    unfold article_keys. cbn [articles]. split.
    + rewrite map_map.
      rewrite (map_ext _ Article.id
                       (updated_row_id article_id article_in)).
      exact Nid.
    + now rewrite (slugs_map _ _ (updated_row_slug article_id article_in)).
  - destruct (blog.delete_article db article_id user) as [r0 db0] eqn:R.
    intros [= _ <- _].
    unfold blog.delete_article in R.
    destruct (negb _); [now injection R as _ <-|].
    destruct (article_by_id db article_id); [|now injection R as _ <-].
    injection R as _ <-. destruct K as [Nid Nsl].
    unfold article_keys. cbn [articles]. split.
    + now apply NoDup_ids_filter.
    + now apply NoDup_slugs_filter.
  - destruct (blog.upload_image disk uuid8 file user) as [r0 disk0].
    now intros [= _ <- _].
Qed.

(** ** Pages and categories *)

Lemma firstn_add {A : Type} (k k' : nat) (l : list A) :
  firstn (k + k') l = (firstn k l ++ firstn k' (skipn k l))%list.
Proof.
  revert l. induction k as [|k IH]; intros l; [reflexivity|].
  destruct l as [|x l]; simpl.
  - now rewrite firstn_nil.
  - f_equal. apply IH.
Qed.

Lemma sqlite_integer_spec (n : Z) :
  sqlite_integer n = true <-> - 2 ^ 63 <= n < 2 ^ 63.
Proof.
  unfold sqlite_integer. rewrite andb_true_iff, Z.leb_le, Z.ltb_lt. tauto.
Qed.

(** X21.  The pages of [read_articles]: with non-negative [skip] and
    [limit] whose sum stays within 64 bits, a page has at most [limit]
    articles, is empty when [skip] reaches the number of articles or [limit]
    is zero, and the page that follows it continues it, so that two
    consecutive pages put together are the page of their joint length.  A
    [skip] or a [limit] beyond 64 bits is not a page but the [OverflowError]
    of the query. *)
Theorem read_articles_pages (db : Session) (skip limit limit' : Z) :
  0 <= skip -> 0 <= limit -> 0 <= limit' -> skip + limit + limit' < 2 ^ 63 ->
  (exists page next both,
    blog.read_articles db skip limit = Return page
    /\ blog.read_articles db (skip + limit) limit' = Return next
    /\ blog.read_articles db skip (limit + limit') = Return both
    /\ both = (page ++ next)%list
    /\ Z.of_nat (List.length page) <= limit
    /\ (Z.of_nat (List.length (articles db)) <= skip -> page = [])
    /\ (limit = 0 -> page = []))
  /\ (forall k l, sqlite_integer k = false \/ sqlite_integer l = false ->
                  blog.read_articles db k l = Unhandled "OverflowError").
Proof.
  intros Hs Hl Hl' Hsum. split.
  - unfold blog.read_articles, blog.offset_limit.
    rewrite !(proj2 (sqlite_integer_spec _)) by lia. cbn [andb].
    destruct (Z.ltb_spec limit 0); [lia|].
    destruct (Z.ltb_spec limit' 0); [lia|].
    destruct (Z.ltb_spec (limit + limit') 0); [lia|].
    eexists. eexists. eexists. repeat split.
    + rewrite !Z2Nat.inj_add by lia.
      rewrite firstn_add, skipn_skipn. f_equal. f_equal. f_equal. lia.
    + pose proof (firstn_le_length (Z.to_nat limit)
                                   (skipn (Z.to_nat skip) (articles db))). lia.
    + intros Hlen. rewrite skipn_all2 by lia. now rewrite firstn_nil.
    + intros ->. reflexivity.
  - intros k l [E|E]; unfold blog.read_articles; rewrite E;
      [reflexivity | now rewrite andb_false_r].
Qed.

Lemma distinct_in (l : list string) (c : string) :
  In c (blog.distinct l) <-> In c l.
Proof.
  induction l as [|x l IH]; cbn [blog.distinct In]; [tauto|].
  rewrite filter_In, IH. split.
  - intros [->|[Hin _]]; tauto.
  - intros [->|Hin]; [now left|].
    destruct (String.eqb_spec x c) as [->|Hne]; [now left|].
    right. split; [exact Hin | reflexivity].
Qed.

Lemma distinct_NoDup (l : list string) : NoDup (blog.distinct l).
Proof.
  induction l as [|x l IH]; cbn [blog.distinct]; constructor.
  - intros Hin. apply filter_In in Hin as [_ Hn].
    now rewrite String.eqb_refl in Hn.
  - now apply NoDup_filter.
Qed.

Lemma categories_not_null_in (rows : list Article.t) (c : string) :
  In c (blog.categories_not_null rows)
  <-> exists a, In a rows /\ Article.category a = Some c.
Proof.
  induction rows as [|a rows IH]; cbn [blog.categories_not_null].
  - split; [intros [] | intros (a & [] & _)].
  - destruct (Article.category a) as [c'|] eqn:C; cbn [In]; rewrite IH; split.
    + intros [->|(b & Hb & Cb)]; [exists a; auto | exists b; auto].
    + intros (b & [->|Hb] & Cb); [left; congruence | right; eauto].
    + intros (b & Hb & Cb). eauto.
    + intros (b & [->|Hb] & Cb); [congruence | eauto].
Qed.

(** X22.  [read_categories] answers each category once: no category is
    listed twice, and a text is listed exactly when it is not empty and is
    the category of a stored article; articles without category or with the
    empty one add nothing. *)
Theorem read_categories_lists_each_once (db : Session) :
  exists cats,
    blog.read_categories db = Return cats
    /\ NoDup cats
    /\ forall c, In c cats
                 <-> c <> EmptyString
                     /\ exists a, In a (articles db) /\ Article.category a = Some c.
Proof.
  eexists. split; [reflexivity|]. split.
  - apply NoDup_filter, distinct_NoDup.
  - intros c. rewrite filter_In, distinct_in, categories_not_null_in.
    destruct c; cbn [Py.truthy_str]; split; intros [H1 H2]; split; trivial;
      discriminate || congruence.
Qed.

(** ** Uploads *)

(** X23.  [upload_image] writes only images of admins: when it returns,
    the user is an admin, the content type starts with "image/", the file
    was written under the name [uuid8-filename], and the answer is that name
    under "/images/blog/"; when it fails otherwise than in the writing, the
    image directory is the one it was given. *)
Theorem upload_writes_only_images
        {F : FileSystem} (disk disk' : Disk) (uuid8 : string)
        (file : blog_schemas.UploadFile) (user : User.t) (r : result string) :
  blog.upload_image disk uuid8 file user = (r, disk') ->
  (forall url, r = Return url ->
               Py.truthy_bool (User.is_admin user) = true
               /\ exists ct name,
                 blog_schemas.content_type file = Some ct
                 /\ Py.startswith "image/" ct = true
                 /\ blog_schemas.filename file = Some name
                 /\ write_file disk (uuid8 ++ "-" ++ name) (blog_schemas.body file)
                    = (None, disk')
                 /\ url = "/images/blog/" ++ uuid8 ++ "-" ++ name)
  /\ (succeeds r = false -> status r <> 500 -> disk' = disk).
Proof.
  unfold blog.upload_image.
  destruct (Py.truthy_bool (User.is_admin user)) eqn:A; cbn [negb];
    [|intros [= <- <-]; split; [discriminate | reflexivity]].
  destruct (blog_schemas.content_type file) as [ct|];
    [|intros [= <- <-]; split; [discriminate | reflexivity]].
  destruct (Py.startswith "image/" ct) eqn:I; cbn [negb];
    [|intros [= <- <-]; split; [discriminate | reflexivity]].
  destruct (blog_schemas.filename file) as [name|];
    [|intros [= <- <-]; split; [discriminate | reflexivity]].
  destruct (write_file disk (uuid8 ++ "-" ++ name) (blog_schemas.body file))
    as [[e|] d] eqn:W; intros [= <- <-]; split.
  - discriminate.
  - cbn [status]. intros _ H. now contradiction H.
  - intros url [= <-]. split; [reflexivity|]. exists ct, name. repeat split; trivial.
  - discriminate.
Qed.

(** ** The second routes *)

(** X30.  The routes kept for the tests behave as the first ones:
    [save_article_alt] is [save_article]; [unsave_article_alt] and
    [unsave_article_post] are one function, which succeeds when
    [unsave_article] does and leaves the same session, the two differing
    only in the text of the 404. *)
Theorem second_routes_agree (db : Session) (article_id : Z) (current_user : User.t) :
  blog.save_article_alt db article_id current_user
  = blog.save_article db article_id current_user
  /\ blog.unsave_article_post db article_id current_user
     = blog.unsave_article_alt db article_id current_user
  /\ snd (blog.unsave_article_alt db article_id current_user)
     = snd (blog.unsave_article db article_id current_user)
  /\ status (fst (blog.unsave_article_alt db article_id current_user))
     = status (fst (blog.unsave_article db article_id current_user)).
Proof.
  split; [reflexivity|]. split; [reflexivity|].
  unfold blog.unsave_article_alt, blog.unsave_article.
  destruct (saved_by db (User.id current_user) article_id); split; reflexivity.
Qed.

(** ** The basic structure of an article *)

Lemma split_without_separator (sep s : string) :
  sep <> EmptyString -> occurs sep s = false -> Py.split sep s = [s].
Proof.
  intros Hsep. unfold Py.split.
  induction s as [|c s IH]; cbn [occurs Py.split_from]; [reflexivity|].
  intros Ho. apply orb_false_elim in Ho as [Hs Ho].
  rewrite Hs, (IH Ho). reflexivity.
Qed.

Lemma lstrip_length (s : string) : (String.length (Py.lstrip s) <= String.length s)%nat.
Proof.
  induction s as [|c s IH]; cbn [Py.lstrip String.length]; [lia|].
  destruct (Py.isspace c); cbn [String.length]; lia.
Qed.

Lemma lstrip_fixed (c : ascii) (s : string) :
  Py.lstrip (String c s) = String c s -> Py.isspace c = false.
Proof.
  cbn [Py.lstrip]. destruct (Py.isspace c); [|reflexivity].
  intros E. pose proof (lstrip_length s) as Hl. rewrite E in Hl.
  cbn [String.length] in Hl. lia.
Qed.

Lemma lstrip_lstrip (s : string) : Py.lstrip (Py.lstrip s) = Py.lstrip s.
Proof.
  induction s as [|c s IH]; [reflexivity|].
  cbn [Py.lstrip]. destruct (Py.isspace c) eqn:E; [exact IH|].
  cbn [Py.lstrip]. now rewrite E.
Qed.

Lemma rstrip_rstrip (s : string) : Py.rstrip (Py.rstrip s) = Py.rstrip s.
Proof.
  induction s as [|c s IH]; [reflexivity|].
  cbn [Py.rstrip]. destruct (Py.rstrip s) as [|d r] eqn:R.
  - destruct (Py.isspace c) eqn:E; [reflexivity|].
    cbn [Py.rstrip]. now rewrite E.
  - change (Py.rstrip (String c (String d r)))
      with (match Py.rstrip (String d r) with
            | EmptyString => if Py.isspace c then EmptyString
                             else String c EmptyString
            | String d' r' => String c (String d' r')
            end).
    now rewrite IH.
Qed.

Lemma lstrip_rstrip (t : string) :
  Py.lstrip t = t -> Py.lstrip (Py.rstrip t) = Py.rstrip t.
Proof.
  destruct t as [|c t]; [reflexivity|].
  intros E. apply lstrip_fixed in E.
  cbn [Py.rstrip]. destruct (Py.rstrip t); rewrite ?E; cbn [Py.lstrip];
    now rewrite E.
Qed.

Lemma strip_strip (s : string) : Py.strip (Py.strip s) = Py.strip s.
Proof.
  unfold Py.strip.
  rewrite (lstrip_rstrip (Py.lstrip s) (lstrip_lstrip s)).
  apply rstrip_rstrip.
Qed.

Lemma paragraphs_stripped (content p : string) :
  In p (article_structure_service.paragraphs_of content) ->
  p <> EmptyString /\ Py.strip p = p.
Proof.
  unfold article_structure_service.paragraphs_of. intros Hin.
  apply in_map_iff in Hin as (q & <- & Hq).
  apply filter_In in Hq as [_ Hq]. split; [|apply strip_strip].
  destruct (Py.strip q); [discriminate | discriminate].
Qed.

(** X24.  A text without blank line is one paragraph, told twice: the
    introduction of the basic structure is the text stripped of the white
    space around it, and the single section "Contenuto" holds the text as it
    came, white space included. *)
Theorem basic_structure_of_one_paragraph (content : string) :
  occurs article_structure_service.blank_line content = false ->
  article_structure_service._get_basic_structure content
  = article_structure_service.mkStructure
      (Py.strip content) []
      [article_structure_service.mkSection "Contenuto" content "text"]
      [] EmptyString.
Proof.
  intros Ho. unfold article_structure_service._get_basic_structure,
             article_structure_service.paragraphs_of.
  rewrite (split_without_separator _ content) by (trivial || discriminate).
  cbn [filter]. destruct (Py.strip content) as [|c r] eqn:E;
    cbn [Py.truthy_str map List.length tl Nat.ltb Nat.leb];
    rewrite ?E; reflexivity.
Qed.

(** X25.  Whatever the text, the basic structure has an introduction
    without white space around it, empty exactly when every piece of the
    text between blank lines is white space; exactly one section, titled
    "Contenuto"; and no highlight, tip or conclusion. *)
Theorem basic_structure_shape (content : string) :
  let st := article_structure_service._get_basic_structure content in
  Py.strip (article_structure_service.intro_text st)
  = article_structure_service.intro_text st
  /\ (article_structure_service.intro_text st = EmptyString
      <-> forall piece,
          In piece (Py.split article_structure_service.blank_line content) ->
          Py.strip piece = EmptyString)
  /\ (exists body,
         article_structure_service.sections st
         = [article_structure_service.mkSection "Contenuto" body "text"])
  /\ article_structure_service.highlights st = []
  /\ article_structure_service.tips st = []
  /\ article_structure_service.conclusion_text st = EmptyString.
Proof.
  cbn zeta. unfold article_structure_service._get_basic_structure.
  cbn [article_structure_service.intro_text article_structure_service.sections
       article_structure_service.highlights article_structure_service.tips
       article_structure_service.conclusion_text].
  pose proof (paragraphs_stripped content) as Hp.
  split; [|split; [|split; [eexists; reflexivity | repeat split]]].
  - destruct (article_structure_service.paragraphs_of content) as [|p ps];
      [reflexivity|]. apply Hp. now left.
  - destruct (article_structure_service.paragraphs_of content) as [|p ps] eqn:E.
    + split; [|reflexivity]. intros _ piece Hin.
      destruct (Py.strip piece) as [|c r] eqn:S; [reflexivity|]. exfalso.
      assert (In (Py.strip piece)
                 (article_structure_service.paragraphs_of content)) as Hin'.
      { unfold article_structure_service.paragraphs_of.
        apply in_map. apply filter_In. split; [exact Hin|]. now rewrite S. }
      rewrite E in Hin'. contradiction.
    + split.
      * intros ->. destruct (Hp EmptyString (or_introl eq_refl)) as [N _].
        now contradiction N.
      * intros Hall. exfalso.
        assert (In p (article_structure_service.paragraphs_of content)) as Hin
            by (rewrite E; now left).
        pose proof (Hp p (or_introl eq_refl)) as [N _].
        unfold article_structure_service.paragraphs_of in Hin.
        apply in_map_iff in Hin as (q & <- & Hq).
        apply filter_In in Hq as [Hq _]. now apply N, Hall.
Qed.

(** ** The list of allowed origins *)

Lemma split_comma_cons (x r : string) :
  occurs "," x = false ->
  Py.split "," (x ++ String "," r) = x :: Py.split "," r.
Proof.
  unfold Py.split. induction x as [|c x IH]; intros Ho.
  - reflexivity.
  - cbn [occurs] in Ho. apply orb_false_elim in Ho as [Hs Ho].
    cbn [append Py.split_from]. cbn [Py.startswith] in Hs |- *.
    rewrite andb_true_r in Hs. rewrite Hs. cbn [andb].
    now rewrite (IH Ho).
Qed.

Lemma split_join_comma (items : list string) :
  items <> [] ->
  (forall i, In i items -> occurs "," i = false) ->
  Py.split "," (Py.join "," items) = items.
Proof.
  induction items as [|x items IH]; [congruence|].
  intros _ Hall. destruct items as [|y items].
  - cbn [Py.join]. apply split_without_separator; [discriminate|].
    apply Hall. now left.
  - change (Py.join "," (x :: y :: items))
      with (x ++ String "," (Py.join "," (y :: items))).
    rewrite split_comma_cons by (apply Hall; now left).
    f_equal. apply IH; [discriminate|]. intros i Hi. apply Hall. now right.
Qed.

(** X26.  A comma-separated text of origins is read item by item: for
    items without comma, put together with commas into a text that does not
    start with a bracket, the validator answers the list of the items, each
    stripped of the white space around it; a text that starts with a bracket,
    and a list, are passed on as they are. *)
Theorem cors_origins_round_trip (items : list string) :
  items <> [] ->
  (forall i, In i items -> occurs "," i = false) ->
  Py.startswith "[" (Py.join "," items) = false ->
  settings.assemble_cors_origins (settings.OriginsText (Py.join "," items))
  = settings.OriginsList (map Py.strip items)
  /\ (forall o, In o (map Py.strip items) -> Py.strip o = o)
  /\ (forall s, Py.startswith "[" s = true ->
                settings.assemble_cors_origins (settings.OriginsText s)
                = settings.OriginsText s)
  /\ (forall l, settings.assemble_cors_origins (settings.OriginsList l)
                = settings.OriginsList l).
Proof.
  intros Hne Hall Hb. repeat split.
  - unfold settings.assemble_cors_origins. rewrite Hb. cbn [negb].
    now rewrite split_join_comma.
  - intros o Ho. apply in_map_iff in Ho as (i & <- & _). apply strip_strip.
  - intros s Hs. unfold settings.assemble_cors_origins. now rewrite Hs.
Qed.

(** ** Import and export of the data file *)

Section ImportLoop.
Variables (A E : Type) (key : A -> Z).
Variable matches : E -> A -> bool.
Variables mk mk' : E -> A.
Hypothesis matches_mk : forall e, matches e (mk e) = true.

Lemma insert_row_in (x y : A) (rows : list A) :
  In y (scripts.insert_row key x rows) <-> y = x \/ In y rows.
Proof.
  induction rows as [|z rows IH]; cbn [scripts.insert_row In].
  - intuition.
  - destruct (key x <? key z); cbn [In]; rewrite ?IH; intuition.
Qed.

Lemma insert_row_count (p : A -> bool) (x : A) (rows : list A) :
  List.length (filter p (scripts.insert_row key x rows))
  = (List.length (filter p rows) + if p x then 1 else 0)%nat.
Proof.
  induction rows as [|z rows IH]; cbn [scripts.insert_row filter].
  - destruct (p x); reflexivity.
  - destruct (key x <? key z); cbn [filter].
    + destruct (p x), (p z); cbn [List.length]; lia.
    + destruct (p z); cbn [List.length]; rewrite IH; lia.
Qed.

Lemma insert_row_last (x : A) (rows : list A) :
  (forall z, In z rows -> key z < key x) ->
  scripts.insert_row key x rows = (rows ++ [x])%list.
Proof.
  induction rows as [|z rows IH]; cbn [scripts.insert_row app]; [reflexivity|].
  intros Hall. pose proof (Hall z (or_introl eq_refl)).
  destruct (Z.ltb_spec (key x) (key z)); [lia|].
  simpl. f_equal. apply IH. intros w Hw. apply Hall. now right.
Qed.

Lemma step_with_keeps (rows rows' : list A) (e : E) :
  step_with A E key matches mk rows e = Some rows' ->
  (forall y, In y rows -> In y rows')
  /\ exists y, In y rows' /\ matches e y = true.
Proof.
  unfold step_with, scripts.add_with_id.
  destruct (find (matches e) rows) as [y|] eqn:F.
  - intros [= <-]. split; [trivial|]. exists y. now apply find_some in F.
  - destruct (scripts.id_taken key (key (mk e)) rows); [discriminate|].
    intros [= <-]. split.
    + intros y Hy. apply insert_row_in. now right.
    + exists (mk e). split; [apply insert_row_in; now left | apply matches_mk].
Qed.

Lemma import_each_keeps (entries : list E) (rows rows' : list A) :
  scripts.import_each (step_with A E key matches mk) entries rows = Some rows' ->
  forall y, In y rows -> In y rows'.
Proof.
  revert rows. induction entries as [|e entries IH]; intros rows;
    cbn [scripts.import_each].
  - now intros [= <-].
  - destruct (step_with A E key matches mk rows e) as [r1|] eqn:S; [|discriminate].
    intros R y Hy. apply (IH r1 R). now apply (step_with_keeps rows r1 e S).
Qed.

Lemma import_each_again (entries : list E) (rows rows' : list A) :
  scripts.import_each (step_with A E key matches mk) entries rows = Some rows' ->
  scripts.import_each (step_with A E key matches mk') entries rows' = Some rows'.
Proof.
  revert rows. induction entries as [|e entries IH]; intros rows;
    cbn [scripts.import_each]; [reflexivity|].
  destruct (step_with A E key matches mk rows e) as [r1|] eqn:S; [|discriminate].
  intros R.
  destruct (step_with_keeps rows r1 e S) as [_ (y & Hy & My)].
  pose proof (import_each_keeps entries r1 rows' R y Hy) as Hy'.
  unfold step_with at 1.
  destruct (find (matches e) rows') as [z|] eqn:F.
  - now apply (IH r1).
  - pose proof (find_none _ _ F y Hy'). congruence.
Qed.

End ImportLoop.

Lemma col_is_s_refl (v : option string) : scripts.col_is_s v v = true.
Proof. destruct v; cbn; [apply String.eqb_refl | reflexivity]. Qed.

Lemma col_is_Z_refl (v : option Z) : scripts.col_is_Z v v = true.
Proof. destruct v; cbn; [apply Z.eqb_refl | reflexivity]. Qed.

Lemma col_is_s_eq (c v : option string) : scripts.col_is_s c v = true -> c = v.
Proof.
  destruct c, v; cbn; try discriminate; try reflexivity.
  intros E. apply String.eqb_eq in E. now subst.
Qed.

Lemma col_is_Z_eq (c v : option Z) : scripts.col_is_Z c v = true -> c = v.
Proof.
  destruct c, v; cbn; try discriminate; try reflexivity.
  intros E. apply Z.eqb_eq in E. now subst.
Qed.

Lemma import_user_step :
  scripts.import_user = step_with _ _ User.id user_matches scripts.user_of.
Proof. reflexivity. Qed.

Lemma import_article_step (now : Z) :
  scripts.import_article now
  = step_with _ _ Article.id article_matches (scripts.article_of now).
Proof. reflexivity. Qed.

Lemma import_saved_step :
  scripts.import_saved
  = step_with _ _ SavedArticle.id saved_matches scripts.saved_of.
Proof. reflexivity. Qed.

Lemma user_matches_own (e : scripts.user_data) :
  user_matches e (scripts.user_of e) = true.
Proof. apply col_is_s_refl. Qed.

Lemma article_matches_own (now : Z) (e : scripts.article_data) :
  article_matches e (scripts.article_of now e) = true.
Proof. apply col_is_s_refl. Qed.

Lemma saved_matches_own (e : scripts.saved_data) :
  saved_matches e (scripts.saved_of e) = true.
Proof.
  unfold saved_matches. cbn [scripts.saved_of SavedArticle.user_id
                             SavedArticle.article_id].
  now rewrite !col_is_Z_refl.
Qed.

(** X27.  Importing a data file twice is importing it once: after an
    import that went through, a second import of the same file, at whatever
    time, goes through as well and leaves the session exactly as the first
    left it. *)
Theorem import_twice_is_import_once
        (db db1 : Session) (now now' : Z) (file : scripts.data) :
  scripts.import_data db now file = (Return tt, db1) ->
  scripts.import_data db1 now' file = (Return tt, db1).
Proof.
  unfold scripts.import_data.
  destruct (scripts.import_each scripts.import_user _ _) as [us|] eqn:U;
    [|discriminate].
  destruct (scripts.import_each (scripts.import_article now) _ _) as [ars|] eqn:Ar;
    [|discriminate].
  destruct (scripts.import_each scripts.import_saved _ _) as [svs|] eqn:Sv;
    [|discriminate].
  intros [= <-]. cbn [users articles saved_articles].
  rewrite import_user_step in U |- *.
  rewrite (import_article_step now) in Ar. rewrite (import_article_step now').
  rewrite import_saved_step in Sv |- *.
  rewrite (import_each_again _ _ _ _ _ scripts.user_of user_matches_own _ _ _ U).
  rewrite (import_each_again _ _ _ _ _ (scripts.article_of now')
                             (article_matches_own now) _ _ _ Ar).
  rewrite (import_each_again _ _ _ _ _ scripts.saved_of saved_matches_own _ _ _ Sv).
  reflexivity.
Qed.

Lemma import_saved_unique (rows rows' : list SavedArticle.t)
      (e : scripts.saved_data) (u a : Z) :
  scripts.import_saved rows e = Some rows' ->
  (List.length (filter (is_saved u a) rows) <= 1)%nat ->
  (List.length (filter (is_saved u a) rows') <= 1)%nat.
Proof.
  unfold scripts.import_saved, scripts.add_with_id.
  destruct (find _ rows) as [s|] eqn:F; [now intros [= <-]|].
  destruct (scripts.id_taken _ _ rows); [discriminate|].
  intros [= <-] Hle. rewrite insert_row_count.
  destruct (is_saved u a (scripts.saved_of e)) eqn:S; [|lia].
  unfold is_saved, col_eqZ in S.
  cbn [scripts.saved_of SavedArticle.user_id SavedArticle.article_id] in S.
  destruct (scripts.sd_user_id e) as [x|] eqn:Ux; [|discriminate].
  destruct (scripts.sd_article_id e) as [y|] eqn:Ay;
    [|rewrite andb_false_r in S; discriminate].
  apply andb_prop in S as [Sx Sy]. apply Z.eqb_eq in Sx, Sy. subst x y.
  cbn [scripts.col_is_Z] in F.
  change (find (is_saved u a) rows = None) in F.
  rewrite (find_none_filter _ _ F). cbn. lia.
Qed.

(** X28.  An import keeps bookmarks unique: if the session holds at
    most one bookmark for every user and article before, it does after,
    whether the import went through or not. *)
Theorem import_keeps_bookmarks_unique
        (db db1 : Session) (now : Z) (file : scripts.data) (r : result unit) :
  (forall u a, bookmarks db u a <= 1)%nat ->
  scripts.import_data db now file = (r, db1) ->
  forall u a, (bookmarks db1 u a <= 1)%nat.
Proof.
  intros Inv R u a. unfold scripts.import_data in R.
  destruct (scripts.import_each scripts.import_user _ _) as [us|];
    [|injection R as _ <-; apply Inv].
  destruct (scripts.import_each (scripts.import_article now) _ _) as [ars|];
    [|injection R as _ <-; apply Inv].
  destruct (scripts.import_each scripts.import_saved _ _) as [svs|] eqn:Sv;
    [|injection R as _ <-; apply Inv].
  injection R as _ <-. unfold bookmarks. cbn [saved_articles].
  specialize (Inv u a). unfold bookmarks in Inv.
  revert Sv Inv. generalize (saved_articles db) as rows.
  induction (scripts.d_saved_articles file) as [|e entries IH]; intros rows;
    cbn [scripts.import_each].
  - now intros [= <-].
  - destruct (scripts.import_saved rows e) as [r1|] eqn:S1; [|discriminate].
    intros Sv Hle. apply (IH r1 Sv).
    now apply (import_saved_unique rows r1 e u a S1).
Qed.

Lemma ascending_app {A : Type} (key : A -> Z) (l : list A) (x : A) (r : list A) :
  ascending key (l ++ x :: r) ->
  (forall z, In z l -> key z < key x) /\ ascending key (x :: r).
Proof.
  induction l as [|w l IH]; cbn [app ascending].
  - intros H. split; [intros z [] | exact H].
  - intros [Hw Hl]. destruct (IH Hl) as [Hz Hx]. split; [|exact Hx].
    intros z [<-|Hin]; [|now apply Hz].
    apply Hw. apply in_or_app. right. now left.
Qed.

Lemma NoDup_map_app {A B : Type} (f : A -> B) (l : list A) (x : A) (r : list A) :
  NoDup (map f (l ++ x :: r)) -> forall z, In z l -> f z <> f x.
Proof.
  rewrite map_app. cbn [map]. intros ND z Hz E.
  apply NoDup_remove_2 in ND. apply ND. apply in_or_app. left.
  rewrite <- E. now apply in_map.
Qed.

Section ExportLoop.
Variables (A E B : Type) (key : A -> Z) (value : A -> B).
Variable matches : E -> A -> bool.
Variable mk : E -> A.
Variable entry : A -> E.
Hypothesis matches_value : forall y z, matches (entry y) z = true -> value z = value y.

Lemma import_each_of_export (prefix suffix : list A) :
  ascending key (prefix ++ suffix) ->
  NoDup (map value (prefix ++ suffix)) ->
  (forall y, In y suffix -> mk (entry y) = y) ->
  scripts.import_each (step_with A E key matches mk) (map entry suffix) prefix
  = Some (prefix ++ suffix)%list.
Proof.
  revert prefix. induction suffix as [|x rest IH]; intros prefix Asc ND Hmk.
  - cbn. now rewrite app_nil_r.
  - cbn [map scripts.import_each]. unfold step_with at 1.
    destruct (ascending_app key prefix x rest Asc) as [Hlt _].
    pose proof (NoDup_map_app value prefix x rest ND) as Hne.
    destruct (find (matches (entry x)) prefix) as [z|] eqn:F.
    + apply find_some in F as [Hz Mz].
      now destruct (Hne z Hz (matches_value x z Mz)).
    + unfold scripts.add_with_id. rewrite (Hmk x (or_introl eq_refl)).
      assert (scripts.id_taken key (key x) prefix = false) as T.
      { unfold scripts.id_taken. destruct (existsb _ prefix) eqn:X; [|reflexivity].
        apply existsb_exists in X as (w & Hw & Ew). apply Z.eqb_eq in Ew.
        specialize (Hlt w Hw). lia. }
      rewrite T, (insert_row_last A key x prefix Hlt).
      rewrite (IH (prefix ++ [x])%list); rewrite <- ?app_assoc; trivial.
      intros y Hy. apply Hmk. now right.
Qed.

End ExportLoop.

Lemma export_data_entries (db : Session) :
  scripts.export_data db
  = scripts.mkData (map user_entry (users db))
                   (map article_entry (articles db))
                   (map saved_entry (saved_articles db)).
Proof. reflexivity. Qed.

Lemma user_entry_value (y z : User.t) :
  user_matches (user_entry y) z = true -> User.email z = User.email y.
Proof. apply col_is_s_eq. Qed.

Lemma article_entry_value (y z : Article.t) :
  article_matches (article_entry y) z = true -> Article.slug z = Article.slug y.
Proof. apply col_is_s_eq. Qed.

Lemma saved_entry_value (y z : SavedArticle.t) :
  saved_matches (saved_entry y) z = true ->
  (SavedArticle.user_id z, SavedArticle.article_id z)
  = (SavedArticle.user_id y, SavedArticle.article_id y).
Proof.
  unfold saved_matches. cbn [saved_entry scripts.sd_user_id scripts.sd_article_id].
  intros M. apply andb_prop in M as [M1 M2].
  now rewrite (col_is_Z_eq _ _ M1), (col_is_Z_eq _ _ M2).
Qed.

(** X29.  What the export writes, the import reads back: for a session
    whose tables are in increasing order of id, with emails, slugs and
    bookmark pairs pairwise distinct ([NULL] counting as a value), whose
    columns with a default ([is_active], [is_admin] and [language] of a
    user, [is_published] of an article) hold a value, and whose articles
    have a creation time, importing the exported data into the empty
    session goes through and gives the session back. *)
Theorem export_then_import (db : Session) (now : Z) :
  ascending User.id (users db) ->
  ascending Article.id (articles db) ->
  ascending SavedArticle.id (saved_articles db) ->
  NoDup (map User.email (users db)) ->
  NoDup (map Article.slug (articles db)) ->
  NoDup (map (fun s => (SavedArticle.user_id s, SavedArticle.article_id s))
             (saved_articles db)) ->
  (forall u, In u (users db) ->
             User.is_active u <> None /\ User.is_admin u <> None
             /\ User.language u <> None) ->
  (forall a, In a (articles db) ->
             Article.is_published a <> None /\ Article.created_at a <> None) ->
  scripts.import_data empty_session now (scripts.export_data db) = (Return tt, db).
Proof.
  intros Au Aa As Nu Na Ns Hd Hc.
  rewrite export_data_entries. unfold scripts.import_data.
  cbn [scripts.d_users scripts.d_articles scripts.d_saved_articles
       empty_session users articles saved_articles].
  rewrite import_user_step, (import_article_step now), import_saved_step.
  rewrite (import_each_of_export
             _ _ _ User.id User.email user_matches scripts.user_of user_entry
             user_entry_value [] (users db) Au Nu).
  - rewrite (import_each_of_export
               _ _ _ Article.id Article.slug article_matches
               (scripts.article_of now) article_entry
               article_entry_value [] (articles db) Aa Na).
    + rewrite (import_each_of_export
                 _ _ _ SavedArticle.id
                 (fun s => (SavedArticle.user_id s, SavedArticle.article_id s))
                 saved_matches scripts.saved_of saved_entry
                 saved_entry_value [] (saved_articles db) As Ns);
        [|now intros []].
      simpl. now destruct db.
    + intros a Ha. destruct (Hc a Ha) as [Hp Ht].
      destruct a as [? ? ? ? ? ? ? ? ? ? ? pa ca].
      cbn [Article.created_at Article.is_published] in Hp, Ht.
      destruct ca; [|contradiction]. destruct pa; [reflexivity | contradiction].
  - intros u Hu. destruct (Hd u Hu) as (Ha & Hb & Hl).
    destruct u as [? ? ? ? ac ad la].
    cbn [User.is_active User.is_admin User.language] in Ha, Hb, Hl.
    destruct ac; [|contradiction]. destruct ad; [|contradiction].
    destruct la; [reflexivity | contradiction].
Qed.

(** ** The further properties on concrete requests *)

Ltac distinct_keys :=
  cbn; repeat (constructor; [cbn; intuition discriminate|]); constructor.



(** A second user registers next to the first. *)
Lemma register_keeps_keys_witness :
  NoDup (map User.id [Scenario.alice; Samples.bob_registered])
  /\ NoDup (emails [Scenario.alice; Samples.bob_registered]).
Proof.
  apply (register_keeps_keys
           (L := ModelLaws.passlib) Scenario.with_alice
           (mkSession [Scenario.alice; Samples.bob_registered] [] [])
           "NaCl" Samples.second_registration (Return Samples.bob_registered)).
  - distinct_keys.
  - distinct_keys.
  - reflexivity.
Defined.

Lemma register_keeps_other_accounts_witness :
  user_by_id (mkSession [Scenario.alice; Samples.bob_registered] [] []) (Some 1)
  = Some Scenario.alice.
Proof.
  refine (proj2 (register_keeps_other_accounts
                   (L := ModelLaws.passlib) (J := ModelLaws.jose)
                   Scenario.with_alice
                   (mkSession [Scenario.alice; Samples.bob_registered] [] [])
                   "NaCl" Samples.second_registration
                   (Return Samples.bob_registered) _) 1 Scenario.alice _);
    reflexivity.
Defined.

(** The request asked for an admin; the user registered is refused. *)
Lemma registered_user_cannot_mutate_witness :
  perform (F := ModelLaws.filesystem) (Delete 1) Samples.bob_registered
          Scenario.t0 (Scenario.with_draft, [])
  = (HTTPException 403 "Only admins can delete articles",
     (Scenario.with_draft, [])).
Proof.
  refine (proj2 (proj2 (registered_user_cannot_mutate
                          (L := ModelLaws.passlib) (F := ModelLaws.filesystem)
                          Scenario.with_alice
                          (mkSession [Scenario.alice; Samples.bob_registered] [] [])
                          "NaCl" Samples.second_registration
                          Samples.bob_registered (Delete 1) Scenario.t0
                          (Scenario.with_draft, []) _))).
  reflexivity.
Defined.

Lemma save_then_unsave_restores_witness :
  exists saved db1,
    blog.save_article Samples.without_bookmark 1 Scenario.alice = (Return saved, db1)
    /\ blog.unsave_article db1 1 Scenario.alice
       = (Return "Article removed from saved", Samples.without_bookmark).
Proof.
  apply (save_then_unsave_restores Samples.without_bookmark 1 Scenario.alice).
  - discriminate.
  - reflexivity.
Defined.

Lemma unsave_then_unsave_is_404_witness :
  blog.unsave_article Samples.without_bookmark 1 Scenario.alice
  = (HTTPException 404 "Saved article not found", Samples.without_bookmark).
Proof.
  refine (proj2 (unsave_then_unsave_is_404
                   Samples.with_bookmark Samples.without_bookmark 1 Scenario.alice
                   "Article removed from saved" _ _)).
  - vm_compute. lia.
  - reflexivity.
Defined.

Lemma bookmarks_are_per_user_witness :
  blog.read_saved_articles Samples.with_bookmark Samples.bob
  = blog.read_saved_articles Samples.without_bookmark Samples.bob.
Proof.
  refine (proj1 (proj2 (proj2 (bookmarks_are_per_user
                                 Samples.without_bookmark Samples.with_bookmark 1
                                 Scenario.alice Samples.bob _)))
                (Return Samples.bookmark) _).
  - discriminate.
  - reflexivity.
Defined.

Lemma created_article_is_not_public_witness :
  blog.get_all_articles Samples.with_teide = blog.get_all_articles Scenario.with_draft.
Proof.
  refine (proj1 (created_article_is_not_public
                   Scenario.with_draft Samples.with_teide Scenario.t0 None
                   Scenario.teide Scenario.admin (Return Scenario.teide_row) _)).
  reflexivity.
Defined.

Lemma simple_article_has_author_and_status_witness :
  Article.author_id Samples.anaga_row = Some 2.
Proof.
  refine (proj1 (simple_article_has_author_and_status
                   Scenario.with_draft
                   (mkSession [Scenario.alice; Scenario.admin]
                              [Scenario.draft; Samples.anaga_row] [])
                   Scenario.t0 Samples.simple_request Scenario.admin
                   Samples.anaga_row _)).
  reflexivity.
Defined.

Lemma create_then_read_by_slug_witness :
  blog.read_article_by_slug Samples.with_teide (slug_stored Scenario.teide)
  = Return Scenario.teide_row.
Proof.
  refine (proj1 (proj2 (create_then_read_by_slug
                          Scenario.with_draft Samples.with_teide Scenario.t0 None
                          Scenario.teide Scenario.admin Scenario.teide_row _))).
  reflexivity.
Defined.

Lemma create_twice_raises_witness :
  blog.create_article Samples.with_teide (Scenario.t0 + 1) None Scenario.teide
                      Scenario.admin
  = (Unhandled "IntegrityError", Samples.with_teide).
Proof.
  apply (create_twice_raises
           Scenario.with_draft Samples.with_teide Scenario.t0 (Scenario.t0 + 1)
           None None Scenario.teide Scenario.admin Scenario.admin
           Scenario.teide_row).
  - reflexivity.
  - reflexivity.
Defined.

Lemma update_keeps_identity_witness :
  blog.read_article Samples.with_published 1 = Return Samples.published_draft.
Proof.
  refine (proj1 (proj2 (update_keeps_identity
                          (mkSession [Scenario.alice; Scenario.admin]
                                     [Scenario.draft] [])
                          Samples.with_published 1 Samples.publish Scenario.admin
                          Samples.published_draft _))).
  reflexivity.
Defined.

Lemma empty_update_changes_nothing_witness :
  blog.update_article
    Scenario.with_draft 1
    (blog_schemas.mkArticleUpdate None None None None None None) Scenario.admin
  = (Return Scenario.draft, Scenario.with_draft).
Proof.
  apply (empty_update_changes_nothing Scenario.with_draft 1 Scenario.admin
                                      Scenario.draft);
    reflexivity.
Defined.

Lemma update_publishes_and_unpublishes_witness :
  exists rows,
    blog.get_all_articles Samples.with_published = Return rows
    /\ In Samples.published_draft rows.
Proof.
  refine (proj1 (update_publishes_and_unpublishes
                   (mkSession [Scenario.alice; Scenario.admin] [Scenario.draft] [])
                   Samples.with_published 1 Samples.publish Scenario.admin
                   Samples.published_draft _) _);
    reflexivity.
Defined.

(** The draft is deleted; its bookmark stays. *)
Lemma delete_removes_only_the_article_witness :
  blog.read_article
    (mkSession [Scenario.alice; Scenario.admin; Samples.bob] [] [Samples.bookmark]) 1
  = HTTPException 404 "Article not found".
Proof.
  refine (proj1 (delete_removes_only_the_article
                   Samples.with_bookmark
                   (mkSession [Scenario.alice; Scenario.admin; Samples.bob] []
                              [Samples.bookmark])
                   1 Scenario.admin "Article deleted successfully" _)).
  reflexivity.
Defined.

Lemma mutations_keep_article_keys_witness : article_keys Samples.with_teide.
Proof.
  apply (mutations_keep_article_keys
           (F := ModelLaws.filesystem)
           (Create None Scenario.teide) Scenario.admin Scenario.t0
           Scenario.with_draft Samples.with_teide [] []
           (Return (AnArticle Scenario.teide_row))).
  - split; distinct_keys.
  - reflexivity.
Defined.

Lemma read_articles_pages_witness :
  exists page next both,
    blog.read_articles Samples.with_teide 0 1 = Return page
    /\ blog.read_articles Samples.with_teide (0 + 1) 1 = Return next
    /\ blog.read_articles Samples.with_teide 0 (1 + 1) = Return both
    /\ both = (page ++ next)%list
    /\ Z.of_nat (List.length page) <= 1
    /\ (Z.of_nat (List.length (articles Samples.with_teide)) <= 0 -> page = [])
    /\ (1 = 0 -> page = []).
Proof.
  apply (read_articles_pages Samples.with_teide 0 1 1); lia.
Defined.

Lemma upload_writes_only_images_witness :
  Py.truthy_bool (User.is_admin Scenario.admin) = true.
Proof.
  refine (proj1 (proj1 (upload_writes_only_images
                          (F := ModelLaws.filesystem)
                          [] [("1a2b3c4d-teide.jpg", "pixels")] "1a2b3c4d"
                          Samples.photo Scenario.admin
                          (Return "/images/blog/1a2b3c4d-teide.jpg") _)
                       "/images/blog/1a2b3c4d-teide.jpg" _));
    reflexivity.
Defined.

Lemma basic_structure_of_one_paragraph_witness :
  article_structure_service._get_basic_structure " Teide at dawn "
  = article_structure_service.mkStructure
      "Teide at dawn" []
      [article_structure_service.mkSection "Contenuto" " Teide at dawn " "text"]
      [] EmptyString.
Proof.
  apply (basic_structure_of_one_paragraph " Teide at dawn ").
  reflexivity.
Defined.

Lemma cors_origins_round_trip_witness :
  settings.assemble_cors_origins
    (settings.OriginsText "http://localhost:3000, http://localhost:5173")
  = settings.OriginsList ["http://localhost:3000"; "http://localhost:5173"].
Proof.
  refine (proj1 (cors_origins_round_trip
                   ["http://localhost:3000"; " http://localhost:5173"] _ _ _)).
  - discriminate.
  - intros i [<-|[<-|[]]]; reflexivity.
  - reflexivity.
Defined.

Lemma import_twice_is_import_once_witness :
  scripts.import_data Samples.with_bookmark (Scenario.t0 + 1)
                      (scripts.export_data Samples.with_bookmark)
  = (Return tt, Samples.with_bookmark).
Proof.
  apply (import_twice_is_import_once
           empty_session Samples.with_bookmark Scenario.t0 (Scenario.t0 + 1)
           (scripts.export_data Samples.with_bookmark)).
  reflexivity.
Defined.

Lemma import_keeps_bookmarks_unique_witness :
  (bookmarks Samples.with_bookmark 1 1 <= 1)%nat.
Proof.
  apply (import_keeps_bookmarks_unique
           empty_session Samples.with_bookmark Scenario.t0
           (scripts.export_data Samples.with_bookmark) (Return tt)).
  - intros u a. cbn. lia.
  - reflexivity.
Defined.

Lemma export_then_import_witness :
  scripts.import_data empty_session Scenario.t0
                      (scripts.export_data Samples.with_bookmark)
  = (Return tt, Samples.with_bookmark).
Proof.
  apply (export_then_import Samples.with_bookmark Scenario.t0).
  - cbn. intuition (subst; cbn; lia).
  - cbn. intuition (subst; cbn; lia).
  - cbn. intuition.
  - distinct_keys.
  - distinct_keys.
  - distinct_keys.
  - intros u [<-|[<-|[<-|[]]]]; repeat split; discriminate.
  - intros a [<-|[]]. split; discriminate.
Defined.
